(** * RepoLogic: the embedding store ([tools/embedder.py]) and the [/ask] route

    A shallow embedding of [EmbeddingStore] (index build, existence check,
    similarity search, selection-based retrieval) and of the [/ask] handler of
    [app.py], with the properties of the retrieval core stated over it.

    Conventions.
    - Python exceptions are the [Raised] constructor of [outcome]; a
      [try/except Exception] is [try_except].
    - The storage directory is a finite map from file names to file contents.
      Writes are modelled as succeeding; a file whose content cannot be read
      back ([Garbage]) makes the reader raise.
    - Embedding components stand for float32 values and are modelled as
      integers: the properties below concern counts, order and identity of
      results, not rounding.
    - The remote embedding model and the FAISS library are outside the
      repository.  The model is a pair of section variables that may raise;
      [IndexFlatL2] is modelled by its documented behaviour. *)

From Stdlib Require Import ZArith List Lia Ascii DecimalString.
From stdpp Require Import gmap strings list fin_maps sorting.

Open Scope Z_scope.

(** ** Exceptions *)

Record exn := Exn { exn_class : string; exn_msg : string }.

Inductive outcome (A : Type) : Type :=
| Returned (a : A)
| Raised (e : exn).
Arguments Returned {A} a.
Arguments Raised {A} e.

Definition obind {A B} (m : outcome A) (f : A -> outcome B) : outcome B :=
  match m with
  | Returned a => f a
  | Raised e => Raised e
  end.

Notation "x ←! m ; k" := (obind m (fun x => k))
  (at level 100, m at next level, right associativity,
   format "x  ←!  m ;  '/' k").

(** [try: body except Exception: handler] *)
Definition try_except {A} (body : outcome A) (handler : exn -> outcome A) : outcome A :=
  match body with
  | Returned a => Returned a
  | Raised e => handler e
  end.

Definition AssertionError := Exn "AssertionError" "".
Definition ValueError (msg : string) := Exn "ValueError" msg.
Definition IndexError := Exn "IndexError" "list index out of range".
Definition UnpicklingError := Exn "UnpicklingError" "".
Definition RuntimeError (msg : string) := Exn "RuntimeError" msg.

(** ** Chunks *)

(** Modelled from the spec: the [LineNumberChunk] class of [tools/chunker.py]
    (not among the source files); the Segment of the data model, with the
    fields the embedder and the routes read. *)
Record LineNumberChunk := {
  chunk_id : string;
  file_path : string;
  start_line : Z;
  end_line : Z;
  content : string;
  language : string;
}.

(** ** Python list indexing *)

Definition len {A} (l : list A) : Z := Z.of_nat (length l).

(** [l[i]]: a negative index counts from the end, anything outside
    [-len l, len l) raises [IndexError]. *)
Definition py_getitem {A} (l : list A) (i : Z) : outcome A :=
  let j := if i <? 0 then len l + i else i in
  if j <? 0 then Raised IndexError
  else match l !! Z.to_nat j with
       | Some x => Returned x
       | None => Raised IndexError
       end.

(** [l[i:j]] for [0 <= i <= j]. *)
Definition py_slice {A} (l : list A) (i j : nat) : list A :=
  take (j - i)%nat (drop i l).

(** ** Vectors and the FAISS flat L2 index *)

Definition vec := list Z.

(** A distance reported by a search: a squared L2 distance, or the filler
    FAISS reports for a missing neighbour (the largest float32). *)
Inductive distance :=
| Dist (d : Z)
| FltMax.

Definition dist_leb (a b : distance) : bool :=
  match a, b with
  | Dist x, Dist y => x <=? y
  | _, FltMax => true
  | FltMax, Dist _ => false
  end.

Fixpoint l2 (x y : vec) : Z :=
  match x, y with
  | a :: x', b :: y' => (a - b) * (a - b) + l2 x' y'
  | _, _ => 0
  end.

(** [faiss.IndexFlatL2(d)] after [add]: the dimension and the stored rows. *)
Record IndexFlatL2 := {
  index_d : nat;
  index_xb : list vec;
}.

Definition ntotal (index : IndexFlatL2) : nat := length (index_xb index).

(** Stable insertion by ascending distance: among equal distances the row
    added first stays first. *)
Fixpoint insert_hit (h : Z * Z) (hits : list (Z * Z)) : list (Z * Z) :=
  match hits with
  | [] => [h]
  | h' :: rest => if h.1 <=? h'.1 then h :: hits else h' :: insert_hit h rest
  end.

Fixpoint sort_hits (hits : list (Z * Z)) : list (Z * Z) :=
  match hits with
  | [] => []
  | h :: rest => insert_hit h (sort_hits rest)
  end.

(** Rows paired with their labels [start, start+1, ...]. *)
Fixpoint label_rows (q : vec) (start : Z) (xb : list vec) : list (Z * Z) :=
  match xb with
  | [] => []
  | x :: rest => (l2 q x, start) :: label_rows q (start + 1) rest
  end.

(** [index.search(x, k)] for a single query row: [k] pairs, the nearest
    first; when the index holds fewer than [k] rows the tail is filled with
    label [-1].  The Python wrapper asserts the dimension and [k > 0]. *)
Definition index_search (index : IndexFlatL2) (q : vec) (k : Z)
  : outcome (list (distance * Z)) :=
  if negb (length q =? index_d index)%nat then Raised AssertionError
  else if negb (0 <? k) then Raised AssertionError
  else
    let hits := take (Z.to_nat k) (sort_hits (label_rows q 0 (index_xb index))) in
    let found := map (fun h : Z * Z => (Dist h.1, h.2)) hits in
    Returned (found ++ replicate (Z.to_nat k - length found)%nat (FltMax, -1)).

(** ** NumPy arrays of embeddings *)

(** The result of [np.array(rows, dtype='float32')]: [shape_1 = None] is the
    one-dimensional empty array [np.array([])]. *)
Record ndarray := {
  shape_0 : nat;
  shape_1 : option nat;
  rows : list vec;
}.

Definition ndarray_size (a : ndarray) : nat :=
  match shape_1 a with
  | Some d => (shape_0 a * d)%nat
  | None => shape_0 a
  end.

(** Rows of unequal length cannot form an array: [ValueError]. *)
Definition np_array (rs : list vec) : outcome ndarray :=
  match rs with
  | [] => Returned {| shape_0 := 0; shape_1 := None; rows := [] |}
  | r :: _ =>
      if forallb (fun r' => (length r' =? length r)%nat) rs
      then Returned {| shape_0 := length rs; shape_1 := Some (length r); rows := rs |}
      else Raised (ValueError "inhomogeneous shape")
  end.

(** ** The storage directory *)

Record IndexInfo := {
  total_chunks : nat;
  dimension : nat;
  info_repo_id : string;
}.

Inductive file :=
| FaissFile (index : IndexFlatL2)
| ChunksPickle (chunks : list LineNumberChunk)
| InfoPickle (info : IndexInfo)
| Garbage.

Abbreviation Storage := (gmap string file).

Definition index_path (repo_id : string) : string := repo_id +:+ ".faiss".
Definition chunks_path (repo_id : string) : string := repo_id +:+ "_chunks.pkl".
Definition info_path (repo_id : string) : string := repo_id +:+ "_info.pkl".

(** [Path.exists()] *)
Definition path_exists (fs : Storage) (p : string) : bool := bool_decide (is_Some (fs !! p)).

Definition read_index (fs : Storage) (p : string) : outcome IndexFlatL2 :=
  match fs !! p with
  | Some (FaissFile index) => Returned index
  | _ => Raised (RuntimeError "could not read index")
  end.

Definition pickle_load_chunks (fs : Storage) (p : string) : outcome (list LineNumberChunk) :=
  match fs !! p with
  | Some (ChunksPickle chunks) => Returned chunks
  | _ => Raised UnpicklingError
  end.

Definition pickle_load_info (fs : Storage) (p : string) : outcome IndexInfo :=
  match fs !! p with
  | Some (InfoPickle info) => Returned info
  | _ => Raised UnpicklingError
  end.

(** ** EmbeddingStore *)

Definition nl : string := String (Ascii.ascii_of_nat 10) EmptyString.

(** [f"File: {chunk.file_path}\nLanguage: {chunk.language}\n\n{chunk.content}"] *)
Definition enriched_text (chunk : LineNumberChunk) : string :=
  "File: " +:+ file_path chunk +:+ nl +:+ "Language: " +:+ language chunk +:+ nl +:+ nl +:+ content chunk.

Definition batch_size : nat := 100.

(** [range(0, n, batch_size)] *)
Definition batch_starts (n : nat) : list nat :=
  map (fun j => (j * batch_size)%nat) (seq 0 ((n + batch_size - 1) / batch_size)).

Section EmbeddingStore.

(** The remote embedding model.  [embed_documents n batch] is its answer to
    the [n]-th request of a build (so the same texts may succeed in one
    request and fail in another); [embed_query] serves one request per
    search. *)
Variable embed_documents : nat -> list string -> outcome (list vec).
Variable embed_query : string -> outcome vec.

(** The loop of [embed_chunks]: one request per batch, the vectors
    appended in order; an exception of the model is logged and raised
    again. *)
Fixpoint embed_batches (texts : list string) (starts : list nat) (embeddings : list vec)
  : outcome (list vec) :=
  match starts with
  | [] => Returned embeddings
  | i :: starts' =>
      let batch := py_slice texts i (i + batch_size) in
      batch_embeddings ←! try_except (embed_documents (i / batch_size) batch)
                                     (fun e => Raised e);
      embed_batches texts starts' (embeddings ++ batch_embeddings)
  end.

Definition embed_chunks (chunks : list LineNumberChunk) : outcome ndarray :=
  match chunks with
  | [] => np_array []
  | _ =>
      let texts_to_embed := map enriched_text chunks in
      embeddings ←! embed_batches texts_to_embed (batch_starts (length texts_to_embed)) [];
      np_array embeddings
  end.

(** The body of the [try] of [create_index]: the answer and the storage
    the body leaves (also when it raises).  The three writes are taken to
    succeed: a write that raises, and the partly written directory it would
    leave, are not modelled; the general statements about a successful build
    take its success as a hypothesis. *)
Definition create_index_body (fs : Storage) (repo_id : string) (chunks : list LineNumberChunk)
  : outcome bool * Storage :=
  match embed_chunks chunks with
  | Raised e => (Raised e, fs)
  | Returned embeddings =>
      if (ndarray_size embeddings =? 0)%nat then (Returned false, fs)
      else
        match shape_1 embeddings with
        | None => (Raised IndexError, fs)
        | Some dimension =>
            let index := {| index_d := dimension; index_xb := rows embeddings |} in
            let fs1 := <[index_path repo_id := FaissFile index]> fs in
            let fs2 := <[chunks_path repo_id := ChunksPickle chunks]> fs1 in
            let fs3 := <[info_path repo_id :=
                           InfoPickle {| total_chunks := length chunks;
                                         dimension := dimension;
                                         info_repo_id := repo_id |}]> fs2 in
            (Returned true, fs3)
        end
  end.

Definition create_index (fs : Storage) (repo_id : string) (chunks : list LineNumberChunk)
  : bool * Storage :=
  match chunks with
  | [] => (false, fs)
  | _ =>
      match create_index_body fs repo_id chunks with
      | (Returned ok, fs') => (ok, fs')
      | (Raised _, fs') => (false, fs')
      end
  end.

Definition has_index (fs : Storage) (repo_id : string) : bool :=
  path_exists fs (index_path repo_id) && path_exists fs (chunks_path repo_id).

(** The loop that pairs the labels of a search with the stored chunks. *)
Fixpoint collect_results (chunks : list LineNumberChunk) (hits : list (distance * Z))
    (results : list (LineNumberChunk * distance))
  : outcome (list (LineNumberChunk * distance)) :=
  match hits with
  | [] => Returned results
  | (dist, idx) :: hits' =>
      if idx <? len chunks then
        chunk ←! py_getitem chunks idx;
        collect_results chunks hits' (results ++ [(chunk, dist)])
      else collect_results chunks hits' results
  end.

(** The body of the [try] of [search_similar]. *)
Definition search_similar_body (fs : Storage) (repo_id query : string) (k : Z)
  : outcome (list (LineNumberChunk * distance)) :=
  index ←! read_index fs (index_path repo_id);
  chunks ←! pickle_load_chunks fs (chunks_path repo_id);
  query_embedding ←! embed_query query;
  hits ←! index_search index query_embedding (Z.min k (len chunks));
  collect_results chunks hits [].

Definition search_similar (fs : Storage) (repo_id query : string) (k : Z)
  : outcome (list (LineNumberChunk * distance)) :=
  if negb (has_index fs repo_id) then Returned []
  else try_except (search_similar_body fs repo_id query k) (fun _ => Returned []).

Definition get_index_stats (fs : Storage) (repo_id : string) : outcome (option IndexInfo) :=
  if negb (has_index fs repo_id) then Returned None
  else if path_exists fs (info_path repo_id)
       then info ←! pickle_load_info fs (info_path repo_id); Returned (Some info)
       else Returned None.

End EmbeddingStore.

(** ** The chunk store *)

Abbreviation ChunkDB := (gmap string (list LineNumberChunk)).

Fixpoint insert_by_start (c : LineNumberChunk) (l : list LineNumberChunk) : list LineNumberChunk :=
  match l with
  | [] => [c]
  | c' :: rest => if start_line c <? start_line c' then c :: l else c' :: insert_by_start c rest
  end.

Definition sort_by_start (l : list LineNumberChunk) : list LineNumberChunk :=
  foldr insert_by_start [] l.

Definition overlaps (path : string) (start_l end_l : Z) (c : LineNumberChunk) : bool :=
  bool_decide (file_path c = path) && (start_line c <=? end_l) && (end_line c >=? start_l).

(** Modelled from the spec: [ChunkStore.get_chunks_by_lines] of
    [tools/chunker.py] (not among the source files).  Every segment of that
    file whose line interval meets the queried one, by ascending start line;
    the empty list, and no error, for a repository without segments. *)
Definition get_chunks_by_lines (db : ChunkDB) (repo_id path : string) (start_l end_l : Z)
  : list LineNumberChunk :=
  match db !! repo_id with
  | Some chunks => sort_by_start (filter (fun c => Is_true (overlaps path start_l end_l c)) chunks)
  | None => []
  end.

(** ** Selection-based retrieval *)

Record SelectionResult := {
  selected_chunks : list LineNumberChunk;
  context_chunks : list LineNumberChunk;
}.

(** The filtering loop of [search_by_selection]: a chunk whose id is not
    among the selected ones is appended, and the loop breaks once the list
    has reached [additional_context_k] (tested after the append). *)
Fixpoint collect_context (selected_ids : gset string) (additional_context_k : Z)
    (similar_results : list (LineNumberChunk * distance)) (context : list LineNumberChunk)
  : list LineNumberChunk :=
  match similar_results with
  | [] => context
  | (chunk, _) :: rest =>
      if bool_decide (chunk_id chunk ∈ selected_ids)
      then collect_context selected_ids additional_context_k rest context
      else
        let context' := context ++ [chunk] in
        if len context' >=? additional_context_k then context'
        else collect_context selected_ids additional_context_k rest context'
  end.

Section Retrieval.

Variable embed_query : string -> outcome vec.

Definition search_by_selection (db : ChunkDB) (fs : Storage) (repo_id path : string)
    (start_l end_l : Z) (additional_context_k : Z) : outcome SelectionResult :=
  let selected := get_chunks_by_lines db repo_id path start_l end_l in
  context ←!
    match selected with
    | first :: _ =>
        if has_index fs repo_id then
          let query_text := content first in
          similar_results ←! search_similar embed_query fs repo_id query_text
                               (additional_context_k + len selected);
          let selected_ids : gset string := list_to_set (map chunk_id selected) in
          Returned (collect_context selected_ids additional_context_k similar_results [])
        else Returned []
    | [] => Returned []
    end;
  Returned {| selected_chunks := selected; context_chunks := context |}.

(** ** The [/ask] route *)

Inductive Body :=
| ErrorBody (error : string)
| AnswerBody (question answer : string) (chunks_used : nat).

Record Response := { body : Body; status : Z }.

(** [get_repo_id] of [tools/github_loader.py] and the chat model are
    outside the source files: the first maps a URL to a repository id, the
    second answers a question over the retrieved chunks (the prompt is
    formatted from them); either may raise. *)
Variable get_repo_id : string -> outcome string.
Variable llm_invoke : string -> list (LineNumberChunk * distance) -> outcome string.

Definition not_indexed_message : string :=
  "Repository not indexed. Please analyze the repository first.".
Definition no_information_answer : string :=
  "I couldn't find relevant information in the repository to answer this question.".

(** [ask_question], from the stripped [repo_url] and [question] on. *)
Definition ask_question (fs : Storage) (repo_url question : string) : Response :=
  if bool_decide (repo_url = "") || bool_decide (question = "")
  then {| body := ErrorBody "repo_url and question cannot be empty"; status := 400 |}
  else
    let attempt : outcome Response :=
      repo_id ←! get_repo_id repo_url;
      if negb (has_index fs repo_id)
      then Returned {| body := ErrorBody not_indexed_message; status := 400 |}
      else
        similar_chunks ←! search_similar embed_query fs repo_id question 5;
        match similar_chunks with
        | [] => Returned {| body := AnswerBody question no_information_answer 0;
                            status := 200 |}
        | _ =>
            answer ←! llm_invoke question similar_chunks;
            Returned {| body := AnswerBody question answer (length similar_chunks);
                        status := 200 |}
        end in
    match attempt with
    | Returned response => response
    | Raised e => {| body := ErrorBody ("Q&A failed: " +:+ exn_msg e); status := 500 |}
    end.

End Retrieval.

(** ** The chunk store: existence and loading *)

Definition NotFoundError := Exn "NotFoundError" "no chunks stored for this repository".

(** Modelled from the spec: [ChunkStore.has_chunks] of [tools/chunker.py]
    (not among the source files), the existence check of the chunk store. *)
Definition has_chunks (db : ChunkDB) (repo_id : string) : bool :=
  bool_decide (is_Some (db !! repo_id)).

(** Modelled from the spec: [ChunkStore.load_chunks] of [tools/chunker.py]
    (not among the source files): the stored segments in order, an error
    when the repository has none stored. *)
Definition load_chunks (db : ChunkDB) (repo_id : string) : outcome (list LineNumberChunk) :=
  match db !! repo_id with
  | Some chunks => Returned chunks
  | None => Raised NotFoundError
  end.

(** ** The [/embed] route *)

Inductive EmbedBody :=
| EmbedError (error : string)
| EmbedDone (repo_id : string) (total_chunks : nat) (index_created : bool).

Record EmbedResponse := { embed_body : EmbedBody; embed_status : Z }.

Section EmbedRoute.

Variable embed_documents : nat -> list string -> outcome (list vec).
Variable get_repo_id : string -> outcome string.

(** The [try] of [embed_repo]: the response, or the exception, with the
    storage directory it leaves. *)
Definition embed_repo_body (db : ChunkDB) (fs : Storage) (repo_url : string)
  : outcome EmbedResponse * Storage :=
  match get_repo_id repo_url with
  | Raised e => (Raised e, fs)
  | Returned repo_id =>
      if negb (has_chunks db repo_id)
      then (Returned {| embed_body := EmbedError "No chunks found. Call /chunk first.";
                        embed_status := 400 |}, fs)
      else
        match load_chunks db repo_id with
        | Raised e => (Raised e, fs)
        | Returned [] =>
            (Returned {| embed_body := EmbedError "No chunks to embed";
                         embed_status := 400 |}, fs)
        | Returned chunks =>
            let '(success, fs') := create_index embed_documents fs repo_id chunks in
            if negb success
            then (Returned {| embed_body := EmbedError "Failed to create embeddings";
                              embed_status := 500 |}, fs')
            else (Returned {| embed_body := EmbedDone repo_id (length chunks) true;
                              embed_status := 200 |}, fs')
        end
  end.

(** [embed_repo], from the stripped [repo_url] on. *)
Definition embed_repo (db : ChunkDB) (fs : Storage) (repo_url : string)
  : EmbedResponse * Storage :=
  if bool_decide (repo_url = "")
  then ({| embed_body := EmbedError "repo_url cannot be empty"; embed_status := 400 |}, fs)
  else
    match embed_repo_body db fs repo_url with
    | (Returned response, fs') => (response, fs')
    | (Raised e, fs') =>
        ({| embed_body := EmbedError ("Embedding failed: " +:+ exn_msg e);
            embed_status := 500 |}, fs')
    end.

End EmbedRoute.

(** ** The [/explain] route *)

(** [str(n)] for an integer. *)
Definition string_of_Z (n : Z) : string := NilZero.string_of_int (Z.to_int n).

(** [f"[{chunk.file_path}:{chunk.start_line}-{chunk.end_line}]\n{chunk.content}"] *)
Definition selected_part (chunk : LineNumberChunk) : string :=
  "[" +:+ file_path chunk +:+ ":" +:+ string_of_Z (start_line chunk) +:+ "-"
      +:+ string_of_Z (end_line chunk) +:+ "]" +:+ nl +:+ content chunk.

(** [f"[Related: {chunk.file_path}:{chunk.start_line}-{chunk.end_line}]\n{chunk.content}"] *)
Definition related_part (chunk : LineNumberChunk) : string :=
  "[Related: " +:+ file_path chunk +:+ ":" +:+ string_of_Z (start_line chunk) +:+ "-"
      +:+ string_of_Z (end_line chunk) +:+ "]" +:+ nl +:+ content chunk.

Definition context_separator : string := nl +:+ nl +:+ "---" +:+ nl +:+ nl.

(** ["\n\n---\n\n".join(context_parts) if context_parts else selected_code] *)
Definition context_text_of (context_parts : list string) (selected_code : string) : string :=
  match context_parts with
  | [] => selected_code
  | _ => String.concat context_separator context_parts
  end.

(** [EXPLAIN_PROMPT.format(...)] *)
Definition explain_prompt (path : string) (start_l end_l : Z) (selected_code context : string)
  : string :=
  "You are an expert code analyst explaining selected code to a developer." +:+ nl +:+ nl
  +:+ "**Selected Code** (from " +:+ path +:+ ", lines " +:+ string_of_Z start_l +:+ "-"
  +:+ string_of_Z end_l +:+ "):" +:+ nl
  +:+ "```" +:+ nl +:+ selected_code +:+ nl +:+ "```" +:+ nl +:+ nl
  +:+ "**Repository Context**:" +:+ nl +:+ context +:+ nl +:+ nl
  +:+ "**Your Task**: Explain the selected code clearly and thoroughly." +:+ nl +:+ nl
  +:+ "Guidelines:" +:+ nl
  +:+ "1. **What it does**: Explain the functionality in plain English" +:+ nl
  +:+ "2. **How it works**: Break down the logic step by step" +:+ nl
  +:+ "3. **Key concepts**: Highlight important patterns, algorithms, or design decisions" +:+ nl
  +:+ "4. **Dependencies**: Note any important imports, functions, or classes it relies on" +:+ nl
  +:+ "5. **Context**: Explain how it fits into the broader codebase (if visible from context)"
  +:+ nl +:+ nl
  +:+ "Use Markdown formatting. Be educational and clear." +:+ nl +:+ nl
  +:+ "Explanation:".

Inductive ExplainBody :=
| ExplainError (error : string)
| Explanation (path line_range explanation : string) (context_chunks_used : nat).

Record ExplainResponse := { explain_body : ExplainBody; explain_status : Z }.

Section ExplainRoute.

Variable embed_query : string -> outcome vec.
Variable get_repo_id : string -> outcome string.

(** [llm.invoke(prompt).content]: the chat model on a prompt. *)
Variable llm : string -> outcome string.

(** [explain_selection], from the decoded request fields on, with the
    line numbers integers. *)
Definition explain_selection (db : ChunkDB) (fs : Storage)
    (repo_url path : string) (start_l end_l : Z) (selected_code : string) : ExplainResponse :=
  let attempt : outcome ExplainResponse :=
    repo_id ←! get_repo_id repo_url;
    context_data ←! search_by_selection embed_query db fs repo_id path start_l end_l 3;
    let context_parts :=
      map selected_part (selected_chunks context_data)
      ++ map related_part (context_chunks context_data) in
    let context_text := context_text_of context_parts selected_code in
    let prompt := explain_prompt path start_l end_l selected_code context_text in
    explanation ←! llm prompt;
    Returned {| explain_body :=
                  Explanation path (string_of_Z start_l +:+ "-" +:+ string_of_Z end_l)
                    explanation
                    (length (selected_chunks context_data)
                     + length (context_chunks context_data));
                explain_status := 200 |} in
  match attempt with
  | Returned response => response
  | Raised e => {| explain_body := ExplainError ("Explanation failed: " +:+ exn_msg e);
                   explain_status := 500 |}
  end.

End ExplainRoute.

(** ** The path of [/file-content] *)

Definition is_dot (c : Ascii.ascii) : bool := bool_decide (c = "."%char).
Definition is_slash (c : Ascii.ascii) : bool := bool_decide (c = "/"%char).

(** [file_path.replace('..', '')]: the occurrences of two dots, found from
    the left and not overlapping, are removed. *)
Fixpoint replace_dotdot (s : string) : string :=
  match s with
  | EmptyString => EmptyString
  | String c rest =>
      match rest with
      | EmptyString => String c EmptyString
      | String c' rest' =>
          if is_dot c && is_dot c' then replace_dotdot rest'
          else String c (replace_dotdot rest)
      end
  end.

(** Whether a name is a single path component: no slash in it. *)
Fixpoint plain_name (s : string) : bool :=
  match s with
  | EmptyString => true
  | String c rest => negb (is_slash c) && plain_name rest
  end.

(** [.lstrip('/')] *)
Fixpoint lstrip_slash (s : string) : string :=
  match s with
  | EmptyString => EmptyString
  | String c rest => if is_slash c then lstrip_slash rest else s
  end.

(** [clean_path = file_path.replace('..', '').lstrip('/')] of
    [get_file_content]. *)
Definition clean_path (path : string) : string := lstrip_slash (replace_dotdot path).

(** Whether two dots stand next to each other somewhere in the string. *)
Fixpoint has_dotdot (s : string) : bool :=
  match s with
  | EmptyString => false
  | String c rest =>
      match rest with
      | EmptyString => false
      | String c' _ => (is_dot c && is_dot c') || has_dotdot rest
      end
  end.

Definition starts_with_slash (s : string) : bool :=
  match s with
  | EmptyString => false
  | String c _ => is_slash c
  end.

(** The three files of a repository. *)
Definition artifact_paths (repo_id : string) : list string :=
  [index_path repo_id; chunks_path repo_id; info_path repo_id].

(** The batches of [embed_chunks]. *)
Definition batches_of (texts : list string) : list (list string) :=
  map (fun i => py_slice texts i (i + batch_size)) (batch_starts (length texts)).

(** The directory after the three files of a build were written. *)
Definition with_artifacts (fs : Storage) (repo_id : string) (index : IndexFlatL2)
    (chunks : list LineNumberChunk) : Storage :=
  <[info_path repo_id := InfoPickle {| total_chunks := length chunks;
                                       dimension := index_d index;
                                       info_repo_id := repo_id |}]>
    (<[chunks_path repo_id := ChunksPickle chunks]>
       (<[index_path repo_id := FaissFile index]> fs)).

(** What a search reports for a label: a row number with the distance of
    the query to that row, or the filler. *)
Definition hit_of_row (xb : list vec) (q : vec) (h : distance * Z) : Prop :=
  match h.1 with
  | Dist dd => 0 <= h.2 /\ exists row, xb !! Z.to_nat h.2 = Some row /\ dd = l2 q row
  | FltMax => h.2 = -1
  end.

(** ** Sample data *)

Definition sample_chunk (id path : string) (s e : Z) (text : string) : LineNumberChunk :=
  {| chunk_id := id; file_path := path; start_line := s; end_line := e;
     content := text; language := "python" |}.

(** An embedding of dimension 8 that only looks at the length of the text. *)
Definition length_embedding (text : string) : vec :=
  [Z.of_nat (String.length text); 0; 0; 0; 0; 0; 0; 0].

Definition steady_documents (n : nat) (batch : list string) : outcome (list vec) :=
  Returned (map length_embedding batch).

Definition steady_query (q : string) : outcome vec := Returned (length_embedding q).

Definition quota_exceeded : exn := Exn "ResourceExhausted" "429 quota exceeded".

(** A model that serves the first request of a build and fails the second. *)
Definition failing_second_request (n : nat) (batch : list string) : outcome (list vec) :=
  if (n =? 1)%nat then Raised quota_exceeded else Returned (map length_embedding batch).

Definition failing_query (q : string) : outcome vec := Raised quota_exceeded.

(** Three segments of a ten-line file (chunk size 4, overlap 1). *)
Definition chunk_a := sample_chunk "f.py:1:0" "f.py" 1 4 "x".
Definition chunk_b := sample_chunk "f.py:4:1" "f.py" 4 7 "xxxx".
Definition chunk_c := sample_chunk "f.py:7:2" "f.py" 7 10 "xxxxxxxxx".
Definition three_chunks : list LineNumberChunk := [chunk_a; chunk_b; chunk_c].

(** The storage after a complete build of repository [demo]. *)
Definition indexed_storage : Storage :=
  (create_index steady_documents ∅ "demo" three_chunks).2.

(** 150 chunks: two batches. *)
Definition many_chunks : list LineNumberChunk :=
  map (fun j => sample_chunk (String (Ascii.ascii_of_nat j) "") "g.py"
                  (Z.of_nat j) (Z.of_nat j) "y") (seq 0 150).

(** The chunk store after [demo] was segmented. *)
Definition segmented_db : ChunkDB := {[ "demo" := three_chunks ]}.

Definition demo_repo_id (url : string) : outcome string := Returned "demo".
Definition other_repo_id (url : string) : outcome string := Returned "other".

Definition canned_llm (question : string) (chunks : list (LineNumberChunk * distance))
  : outcome string := Returned "It parses files.".

(** The answer of [/ask] when the search comes back empty. *)
Definition empty_result_response (question : string) : Response :=
  {| body := AnswerBody question no_information_answer 0; status := 200 |}.

(** The answer of [/ask] for a repository that was not indexed. *)
Definition not_indexed_response : Response :=
  {| body := ErrorBody not_indexed_message; status := 400 |}.

(** The existence check in the words of the specification: all three
    artifacts present and the header count equal to the number of stored
    segments.  Only used to compare [has_index] with. *)
Definition exists_as_specified (fs : Storage) (repo_id : string) : bool :=
  match fs !! index_path repo_id, fs !! chunks_path repo_id, fs !! info_path repo_id with
  | Some (FaissFile _), Some (ChunksPickle chunks), Some (InfoPickle info) =>
      (total_chunks info =? length chunks)%nat
  | _, _, _ => false
  end.

(** The artifacts of [demo] with the header record missing. *)
Definition headerless_storage : Storage := delete (info_path "demo") indexed_storage.

(** The index file written by the build of [demo]. *)
Definition demo_index : IndexFlatL2 :=
  {| index_d := 8; index_xb := map length_embedding (map enriched_text three_chunks) |}.

(** An index file with the rows of the first two chunks only. *)
Definition two_row_index : IndexFlatL2 :=
  {| index_d := 8;
     index_xb := map length_embedding (map enriched_text [chunk_a; chunk_b]) |}.

(** A directory whose index file holds two rows and whose chunk file holds
    three chunks. *)
Definition misaligned_storage : Storage :=
  <[index_path "demo" := FaissFile two_row_index]> indexed_storage.

(** The directory of [demo] with an unreadable chunk file. *)
Definition corrupt_storage : Storage := <[chunks_path "demo" := Garbage]> indexed_storage.

(** A model that answers a batch with vectors for its first two texts only. *)
Definition short_documents (n : nat) (batch : list string) : outcome (list vec) :=
  Returned (map length_embedding (take 2 batch)).

(** ** Orders on search results *)

Definition hit_le (a b : Z * Z) : Prop := a.1 <= b.1.
Definition dist_le (a b : distance) : Prop := dist_leb a b = true.

(** A chat model that always explains, and one that is down. *)
Definition canned_explainer (prompt : string) : outcome string := Returned "It adds two numbers.".
Definition failing_llm (prompt : string) : outcome string := Raised quota_exceeded.

(** ** Index build *)

Section BuildFacts.

Variable embed_documents : nat -> list string -> outcome (list vec).

Lemma embed_batches_raises texts starts embeddings i e :
  In i starts ->
  embed_documents (i / batch_size) (py_slice texts i (i + batch_size)) = Raised e ->
  exists e', embed_batches embed_documents texts starts embeddings = Raised e'.
Proof.
  revert embeddings.
  induction starts as [|j starts IH]; intros embeddings Hin Hfail; [destruct Hin|].
  cbn [embed_batches].
  destruct (embed_documents (j / batch_size) (py_slice texts j (j + batch_size)))
    as [vs|e0] eqn:Hj; cbn [try_except obind].
  - destruct Hin as [->|Hin]; [congruence|].
    apply IH; assumption.
  - exists e0; reflexivity.
Qed.

(** C1: when the embedding of any batch raises, [create_index] answers
    [False] and the storage directory is exactly what it was before the
    call; in particular [has_index] answers as before for every repository. *)
Theorem create_index_batch_failure_persists_nothing
    (fs : Storage) (repo_id : string) (chunks : list LineNumberChunk) (i : nat) (e : exn) :
  In i (batch_starts (length chunks)) ->
  embed_documents (i / batch_size)
    (py_slice (map enriched_text chunks) i (i + batch_size)) = Raised e ->
  create_index embed_documents fs repo_id chunks = (false, fs)
  /\ forall r, has_index (create_index embed_documents fs repo_id chunks).2 r = has_index fs r.
Proof.
  intros Hin Hfail.
  assert (Hc : create_index embed_documents fs repo_id chunks = (false, fs)).
  { destruct chunks as [|c chunks]; [destruct Hin|].
    unfold create_index, create_index_body, embed_chunks.
    rewrite length_map.
    destruct (embed_batches_raises (map enriched_text (c :: chunks))
                (batch_starts (length (c :: chunks))) [] i e Hin Hfail) as [e' ->].
    reflexivity. }
  split; [exact Hc|]. intros r. rewrite Hc. reflexivity.
Qed.

(** C9: [create_index] on an empty chunk list answers [False] and leaves
    the storage directory, hence each of the three artifacts, untouched. *)
Theorem create_index_empty_persists_nothing (fs : Storage) (repo_id : string) :
  create_index embed_documents fs repo_id [] = (false, fs)
  /\ (create_index embed_documents fs repo_id []).2 !! index_path repo_id = fs !! index_path repo_id
  /\ (create_index embed_documents fs repo_id []).2 !! chunks_path repo_id = fs !! chunks_path repo_id
  /\ (create_index embed_documents fs repo_id []).2 !! info_path repo_id = fs !! info_path repo_id.
Proof. repeat split. Qed.

End BuildFacts.

(** A rebuild of [demo] with 150 chunks whose second batch fails: the
    complete index of the first build is what remains. *)
Lemma create_index_batch_failure_witness :
  create_index failing_second_request indexed_storage "demo" many_chunks = (false, indexed_storage)
  /\ forall r, has_index (create_index failing_second_request indexed_storage "demo" many_chunks).2 r
               = has_index indexed_storage r.
Proof.
  apply (create_index_batch_failure_persists_nothing failing_second_request
           indexed_storage "demo" many_chunks 100%nat quota_exceeded).
  - vm_compute. tauto.
  - vm_compute. reflexivity.
Defined.

(** ** Existence check *)

Lemma info_path_not_index_path repo_id : info_path repo_id <> index_path repo_id.
Proof.
  unfold info_path, index_path. intros H.
  apply (inj (String.app repo_id)) in H. discriminate H.
Qed.

Lemma info_path_not_chunks_path repo_id : info_path repo_id <> chunks_path repo_id.
Proof.
  unfold info_path, chunks_path. intros H.
  apply (inj (String.app repo_id)) in H. discriminate H.
Qed.

Lemma index_path_not_chunks_path repo_id : index_path repo_id <> chunks_path repo_id.
Proof.
  unfold index_path, chunks_path. intros H.
  apply (inj (String.app repo_id)) in H. discriminate H.
Qed.

(** C3, the claim at a concrete directory: the index file and the chunk
    file of [demo] exist and the header record does not, and [has_index]
    answers [True]; so [has_index] does not imply the specified check. *)
Lemma has_index_headerless_counterexample :
  has_index headerless_storage "demo" = true
  /\ headerless_storage !! info_path "demo" = None
  /\ ~ (forall fs repo_id, has_index fs repo_id = true -> exists_as_specified fs repo_id = true).
Proof.
  split; [vm_compute; reflexivity|].
  split; [vm_compute; reflexivity|].
  intros H. specialize (H headerless_storage "demo" eq_refl).
  vm_compute in H. discriminate H.
Qed.

(** C3, as the code has it: [has_index] answers [True] exactly when the
    index file and the chunk file both exist; the header record is not
    consulted (removing or overwriting it does not change the answer), and
    neither are the contents of the two files. *)
Theorem has_index_checks_two_files (fs : Storage) (repo_id : string) :
  (has_index fs repo_id = true <->
     is_Some (fs !! index_path repo_id) /\ is_Some (fs !! chunks_path repo_id))
  /\ has_index (delete (info_path repo_id) fs) repo_id = has_index fs repo_id
  /\ (forall f, has_index (<[info_path repo_id := f]> fs) repo_id = has_index fs repo_id)
  /\ (forall f g, has_index (<[index_path repo_id := f]> (<[chunks_path repo_id := g]> fs)) repo_id
                  = true).
Proof.
  pose proof (info_path_not_index_path repo_id) as Hi.
  pose proof (info_path_not_chunks_path repo_id) as Hc.
  pose proof (index_path_not_chunks_path repo_id) as Hic.
  unfold has_index, path_exists.
  split; [|split; [|split]].
  - rewrite andb_true_iff, !bool_decide_eq_true. tauto.
  - by rewrite !lookup_delete_ne.
  - intros f. by rewrite !lookup_insert_ne.
  - intros f g. rewrite lookup_insert_eq, lookup_insert_ne, lookup_insert_eq by done.
    apply andb_true_iff. split; apply bool_decide_eq_true; eauto.
Qed.

(** ** Similarity search *)

Section SearchFacts.

Variable embed_query : string -> outcome vec.

Lemma search_similar_returns fs repo_id query k :
  exists results, search_similar embed_query fs repo_id query k = Returned results.
Proof.
  unfold search_similar.
  destruct (has_index fs repo_id); cbn [negb]; [|eauto].
  destruct (search_similar_body embed_query fs repo_id query k); cbn [try_except]; eauto.
Qed.

(** Called on a repository without index, [search_similar] itself answers
    with the empty list; the routes test [has_index] before they call it. *)
Lemma search_similar_no_index fs repo_id query k :
  has_index fs repo_id = false ->
  search_similar embed_query fs repo_id query k = Returned [].
Proof. unfold search_similar. intros ->. reflexivity. Qed.

(** An exception inside the [try] of [search_similar] becomes the empty
    list. *)
Lemma search_similar_body_raised fs repo_id query k e :
  search_similar_body embed_query fs repo_id query k = Raised e ->
  search_similar embed_query fs repo_id query k = Returned [].
Proof.
  intros H. unfold search_similar. rewrite H.
  destruct (negb (has_index fs repo_id)); reflexivity.
Qed.

Lemma search_similar_body_fails fs repo_id query k e :
  embed_query query = Raised e
  \/ read_index fs (index_path repo_id) = Raised e
  \/ pickle_load_chunks fs (chunks_path repo_id) = Raised e ->
  exists e', search_similar_body embed_query fs repo_id query k = Raised e'.
Proof.
  intros H. unfold search_similar_body.
  destruct (read_index fs (index_path repo_id)) as [index|e1]; [|by eexists].
  destruct (pickle_load_chunks fs (chunks_path repo_id)) as [chunks|e2]; [|by eexists].
  destruct (embed_query query) as [v|e3]; [|by eexists].
  destruct H as [H|[H|H]]; discriminate H.
Qed.

(** C8, as the code has it: when the embedding model raises on the query,
    or the index file or the chunk file cannot be read, [search_similar]
    catches the exception and returns the empty list. *)
Theorem search_similar_failure_returns_empty fs repo_id query k e :
  embed_query query = Raised e
  \/ read_index fs (index_path repo_id) = Raised e
  \/ pickle_load_chunks fs (chunks_path repo_id) = Raised e ->
  search_similar embed_query fs repo_id query k = Returned [].
Proof.
  intros H.
  destruct (search_similar_body_fails fs repo_id query k e H) as [e' He'].
  by apply (search_similar_body_raised fs repo_id query k e').
Qed.

End SearchFacts.

(** A question on the indexed sample repository while the model is down. *)
Lemma search_similar_failure_witness :
  search_similar failing_query indexed_storage "demo" "how are files parsed" 5 = Returned [].
Proof.
  apply (search_similar_failure_returns_empty failing_query indexed_storage "demo"
           "how are files parsed" 5 quota_exceeded).
  left. reflexivity.
Defined.

(** C8, the claim at a concrete query: the index of [demo] exists, the
    embedding model raises, and the caller receives the empty list and no
    error. *)
Lemma search_similar_failure_counterexample :
  has_index indexed_storage "demo" = true
  /\ failing_query "how are files parsed" = Raised quota_exceeded
  /\ search_similar failing_query indexed_storage "demo" "how are files parsed" 5 = Returned []
  /\ ~ (forall embed_query fs repo_id query k e,
          embed_query query = Raised e ->
          exists e', search_similar embed_query fs repo_id query k = Raised e').
Proof.
  split; [vm_compute; reflexivity|].
  split; [reflexivity|].
  split; [vm_compute; reflexivity|].
  intros H.
  destruct (H failing_query indexed_storage "demo" "how are files parsed" 5 quota_exceeded eq_refl)
    as [e' He'].
  vm_compute in He'. discriminate He'.
Qed.

(** ** Free-text questions *)

Section AskFacts.

Variable embed_query : string -> outcome vec.
Variable get_repo_id : string -> outcome string.
Variable llm_invoke : string -> list (LineNumberChunk * distance) -> outcome string.

(** C2, as the code has it: for a repository without index,
    [search_similar] itself returns the empty list and raises nothing; the
    [/ask] route tests [has_index] before it searches and answers with the
    "not indexed" error (status 400), which differs from the answer it gives
    when the search finds nothing (status 200, no chunk used). *)
Theorem ask_question_not_indexed (fs : Storage) (repo_url question repo_id : string) :
  repo_url <> "" ->
  question <> "" ->
  get_repo_id repo_url = Returned repo_id ->
  has_index fs repo_id = false ->
  (forall query k, search_similar embed_query fs repo_id query k = Returned [])
  /\ ask_question embed_query get_repo_id llm_invoke fs repo_url question = not_indexed_response
  /\ ask_question embed_query get_repo_id llm_invoke fs repo_url question
     <> empty_result_response question.
Proof.
  intros Hurl Hq Hid Hidx.
  assert (H : ask_question embed_query get_repo_id llm_invoke fs repo_url question
              = not_indexed_response).
  { unfold ask_question.
    rewrite (bool_decide_eq_false_2 _ Hurl), (bool_decide_eq_false_2 _ Hq).
    cbn [orb]. rewrite Hid. cbn [obind]. rewrite Hidx. reflexivity. }
  split; [intros query k; by apply search_similar_no_index|].
  split; [exact H|]. rewrite H. discriminate.
Qed.

(** X14: with an index in place, a query on which the embedding model raises
    ends in the same answer as a search that found nothing. *)
Lemma ask_question_model_failure (fs : Storage) (repo_url question repo_id : string) (e : exn) :
  repo_url <> "" ->
  question <> "" ->
  get_repo_id repo_url = Returned repo_id ->
  has_index fs repo_id = true ->
  embed_query question = Raised e ->
  ask_question embed_query get_repo_id llm_invoke fs repo_url question
  = empty_result_response question.
Proof.
  intros Hurl Hq Hid Hidx He.
  unfold ask_question.
  rewrite (bool_decide_eq_false_2 _ Hurl), (bool_decide_eq_false_2 _ Hq).
  cbn [orb]. rewrite Hid. cbn [obind]. rewrite Hidx. cbn [negb].
  destruct (search_similar_body_fails embed_query fs repo_id question 5 e (or_introl He))
    as [e' He'].
  rewrite (search_similar_body_raised embed_query fs repo_id question 5 e' He').
  reflexivity.
Qed.

End AskFacts.

(** A question about a repository that was never indexed. *)
Lemma ask_question_not_indexed_witness :
  (forall query k, search_similar steady_query indexed_storage "other" query k = Returned [])
  /\ ask_question steady_query other_repo_id canned_llm indexed_storage
       "https://github.com/octo/other" "how are files parsed" = not_indexed_response
  /\ ask_question steady_query other_repo_id canned_llm indexed_storage
       "https://github.com/octo/other" "how are files parsed"
     <> empty_result_response "how are files parsed".
Proof.
  apply (ask_question_not_indexed steady_query other_repo_id canned_llm indexed_storage
           "https://github.com/octo/other" "how are files parsed" "other").
  - discriminate.
  - discriminate.
  - reflexivity.
  - vm_compute. reflexivity.
Defined.

(** C2, the claim at a concrete query: the repository [other] has no
    index, and the free-text search returns the empty list, an empty-result
    success and no error. *)
Lemma search_similar_missing_index_counterexample :
  has_index indexed_storage "other" = false
  /\ search_similar steady_query indexed_storage "other" "how are files parsed" 5 = Returned []
  /\ ~ (forall embed_query fs repo_id query k,
          has_index fs repo_id = false ->
          exists e, search_similar embed_query fs repo_id query k = Raised e).
Proof.
  split; [vm_compute; reflexivity|].
  split; [vm_compute; reflexivity|].
  intros H.
  destruct (H steady_query indexed_storage "other" "how are files parsed" 5) as [e He].
  - vm_compute. reflexivity.
  - vm_compute in He. discriminate He.
Qed.

(** ** Selection-based retrieval *)

Lemma collect_context_disjoint ids k results context :
  Forall (fun c => chunk_id c ∉ ids) context ->
  Forall (fun c => chunk_id c ∉ ids) (collect_context ids k results context).
Proof.
  revert context.
  induction results as [|[chunk score] rest IH]; intros context Hctx; cbn [collect_context].
  - exact Hctx.
  - case_bool_decide as Hin; [apply IH; exact Hctx|].
    assert (Hctx' : Forall (fun c => chunk_id c ∉ ids) (context ++ [chunk])).
    { apply Forall_app. split; [exact Hctx|]. constructor; [exact Hin|constructor]. }
    destruct (len (context ++ [chunk]) >=? k); [exact Hctx'|].
    apply IH; exact Hctx'.
Qed.

(** For a positive bound the loop keeps the first [additional_context_k]
    chunks, in the order of the search, whose id is not selected. *)
Lemma collect_context_take ids k results context :
  len context < k ->
  collect_context ids k results context
  = context ++ take (Z.to_nat k - length context)
                 (filter (fun c => chunk_id c ∉ ids) (map fst results)).
Proof.
  revert context.
  induction results as [|[chunk score] rest IH]; intros context Hlen; cbn [collect_context map fst].
  - by rewrite filter_nil, take_nil, app_nil_r.
  - case_bool_decide as Hin.
    + rewrite filter_cons_False by (intros H; by apply H). apply IH; exact Hlen.
    + rewrite filter_cons_True by exact Hin.
      unfold len in *. rewrite length_app in *. cbn [length] in *.
      destruct (Z.of_nat (length context + 1) >=? k) eqn:Hk.
      * apply Z.geb_le in Hk.
        replace (Z.to_nat k - length context)%nat with 1%nat by lia.
        cbn [take]. by rewrite take_0.
      * rewrite Z.geb_leb in Hk. apply Z.leb_gt in Hk.
        rewrite IH by (rewrite length_app; cbn [length]; lia).
        rewrite length_app. cbn [length].
        replace (Z.to_nat k - length context)%nat
          with (S (Z.to_nat k - (length context + 1)))%nat by lia.
        cbn [take]. by rewrite <- app_assoc.
Qed.

(** For a bound of zero or less the loop stops after its first append,
    with one chunk. *)
Lemma collect_context_nonpositive_bound ids k chunk score rest :
  k <= 0 ->
  chunk_id chunk ∉ ids ->
  collect_context ids k ((chunk, score) :: rest) [] = [chunk].
Proof.
  intros Hk Hin. cbn [collect_context].
  rewrite (bool_decide_eq_false_2 _ Hin). cbn [app].
  unfold len. cbn [length].
  destruct (Z.of_nat 1 >=? k) eqn:Hge; [reflexivity|].
  rewrite Z.geb_leb in Hge. apply Z.leb_gt in Hge. lia.
Qed.

Section SelectionFacts.

Variable embed_query : string -> outcome vec.

(** C4: with no overlapping chunk, or with no index for the repository,
    [search_by_selection] returns (it does not raise) the overlapping chunks
    and an empty context list. *)
Theorem search_by_selection_without_anchor_or_index
    (db : ChunkDB) (fs : Storage) (repo_id path : string) (start_l end_l k : Z) :
  get_chunks_by_lines db repo_id path start_l end_l = [] \/ has_index fs repo_id = false ->
  search_by_selection embed_query db fs repo_id path start_l end_l k
  = Returned {| selected_chunks := get_chunks_by_lines db repo_id path start_l end_l;
                context_chunks := [] |}.
Proof.
  intros H. unfold search_by_selection.
  destruct (get_chunks_by_lines db repo_id path start_l end_l) as [|first rest]; [reflexivity|].
  destruct H as [H|H]; [discriminate H|].
  rewrite H. reflexivity.
Qed.

(** C5: when at least one chunk overlaps the selection, the retrieval
    returns, and no chunk of the context list has the id of a selected
    chunk. *)
Theorem search_by_selection_context_disjoint
    (db : ChunkDB) (fs : Storage) (repo_id path : string) (start_l end_l k : Z) :
  get_chunks_by_lines db repo_id path start_l end_l <> [] ->
  exists result,
    search_by_selection embed_query db fs repo_id path start_l end_l k = Returned result
    /\ selected_chunks result = get_chunks_by_lines db repo_id path start_l end_l
    /\ forall c x, In c (context_chunks result) -> In x (selected_chunks result) ->
                   chunk_id c <> chunk_id x.
Proof.
  intros Hsel. unfold search_by_selection.
  destruct (get_chunks_by_lines db repo_id path start_l end_l) as [|first rest] eqn:Hs;
    [contradiction|].
  destruct (has_index fs repo_id).
  - destruct (search_similar_returns embed_query fs repo_id (content first)
                (k + len (first :: rest))) as [results ->].
    cbn [obind]. eexists. split; [reflexivity|]. split; [reflexivity|].
    cbn [context_chunks selected_chunks]. intros c x Hc Hx Heq.
    pose proof (collect_context_disjoint (list_to_set (map chunk_id (first :: rest))) k
                  results [] (Forall_nil_2 _)) as Hall.
    rewrite Forall_forall in Hall. apply list_elem_of_In, Hall in Hc.
    apply Hc. rewrite Heq. apply elem_of_list_to_set, list_elem_of_In, in_map. exact Hx.
  - cbn [obind]. eexists. split; [reflexivity|]. split; [reflexivity|].
    intros c x [].
Qed.

(** X13: with an anchor, an index and a positive bound, the context list is the
    first [additional_context_k] neighbours, in the order of the search for
    [additional_context_k + len selected] neighbours of the first selected
    chunk's text, whose id is not selected. *)
Lemma search_by_selection_positive_k
    (db : ChunkDB) (fs : Storage) (repo_id path : string) (start_l end_l k : Z)
    first rest results :
  get_chunks_by_lines db repo_id path start_l end_l = first :: rest ->
  has_index fs repo_id = true ->
  1 <= k ->
  search_similar embed_query fs repo_id (content first) (k + len (first :: rest))
    = Returned results ->
  search_by_selection embed_query db fs repo_id path start_l end_l k
  = Returned {| selected_chunks := first :: rest;
                context_chunks :=
                  take (Z.to_nat k)
                    (filter (fun c => chunk_id c ∉@{gset string}
                                        list_to_set (map chunk_id (first :: rest)))
                       (map fst results)) |}.
Proof.
  intros Hs Hidx Hk Hres. unfold search_by_selection.
  rewrite Hs, Hidx, Hres. cbn [obind].
  rewrite collect_context_take by (unfold len; cbn [length]; lia).
  cbn [length app]. by rewrite Nat.sub_0_r.
Qed.

End SelectionFacts.

(** A selection in a segmented repository that has no index yet. *)
Lemma search_by_selection_without_index_witness :
  search_by_selection steady_query segmented_db ∅ "demo" "f.py" 5 6 3
  = Returned {| selected_chunks := get_chunks_by_lines segmented_db "demo" "f.py" 5 6;
                context_chunks := [] |}.
Proof.
  apply (search_by_selection_without_anchor_or_index steady_query segmented_db ∅
           "demo" "f.py" 5 6 3).
  right. vm_compute. reflexivity.
Defined.

(** A selection in the indexed sample repository. *)
Lemma search_by_selection_context_disjoint_witness :
  exists result,
    search_by_selection steady_query segmented_db indexed_storage "demo" "f.py" 5 6 3
      = Returned result
    /\ selected_chunks result = get_chunks_by_lines segmented_db "demo" "f.py" 5 6
    /\ forall c x, In c (context_chunks result) -> In x (selected_chunks result) ->
                   chunk_id c <> chunk_id x.
Proof.
  apply (search_by_selection_context_disjoint steady_query segmented_db indexed_storage
           "demo" "f.py" 5 6 3).
  vm_compute. discriminate.
Defined.

(** The selection of lines 5 to 6 of the sample file: one exact chunk, and
    the two other chunks as context. *)
Example search_by_selection_sample :
  search_by_selection steady_query segmented_db indexed_storage "demo" "f.py" 5 6 3
  = Returned {| selected_chunks := [chunk_b]; context_chunks := [chunk_a; chunk_c] |}.
Proof. vm_compute. reflexivity. Qed.

(** C6, at a bound of zero: one chunk overlaps lines 5 to 6, the index
    exists, the search is for [0 + 1] neighbour, and the context list comes
    back with one chunk although at most zero were asked for. *)
Theorem search_by_selection_zero_bound_keeps_one :
  search_by_selection steady_query segmented_db indexed_storage "demo" "f.py" 5 6 0
  = Returned {| selected_chunks := [chunk_b]; context_chunks := [chunk_a] |}.
Proof. vm_compute. reflexivity. Qed.

(** ** The flat index *)

Lemma insert_hit_length h hits : length (insert_hit h hits) = S (length hits).
Proof.
  induction hits as [|h' rest IH]; cbn [insert_hit]; [reflexivity|].
  destruct (h.1 <=? h'.1); cbn [length]; [reflexivity|]. by rewrite IH.
Qed.

Lemma sort_hits_length hits : length (sort_hits hits) = length hits.
Proof.
  induction hits as [|h rest IH]; cbn [sort_hits]; [reflexivity|].
  rewrite insert_hit_length. cbn [length]. by rewrite IH.
Qed.

Lemma insert_hit_Forall (P : Z * Z -> Prop) h hits :
  P h -> Forall P hits -> Forall P (insert_hit h hits).
Proof.
  intros Hh. induction 1 as [|h' rest Hh' Hrest IH]; cbn [insert_hit].
  - by constructor.
  - destruct (h.1 <=? h'.1); repeat constructor; auto.
Qed.

Lemma sort_hits_Forall (P : Z * Z -> Prop) hits :
  Forall P hits -> Forall P (sort_hits hits).
Proof.
  induction 1 as [|h rest Hh Hrest IH]; cbn [sort_hits]; [constructor|].
  by apply insert_hit_Forall.
Qed.

Lemma label_rows_length q start xb : length (label_rows q start xb) = length xb.
Proof.
  revert start. induction xb as [|x rest IH]; intros start; cbn [label_rows length];
    [reflexivity|]. by rewrite IH.
Qed.

Lemma label_rows_labels q start xb :
  Forall (fun h : Z * Z => start <= h.2 < start + len xb) (label_rows q start xb).
Proof.
  revert start. induction xb as [|x rest IH]; intros start; cbn [label_rows]; [constructor|].
  unfold len in *. cbn [length]. constructor; [cbn; lia|].
  eapply Forall_impl; [apply IH|]. cbn. intros h Hh. lia.
Qed.

(** A successful search reports exactly [k] pairs. *)
Lemma index_search_length index q k hits :
  index_search index q k = Returned hits -> length hits = Z.to_nat k.
Proof.
  unfold index_search.
  destruct (negb (length q =? index_d index)%nat); [discriminate|].
  destruct (negb (0 <? k)); [discriminate|].
  intros [= <-]. rewrite length_app, length_replicate, length_map, length_take. lia.
Qed.

(** Each label is a row number of the index or the filler [-1]. *)
Lemma index_search_labels index q k hits :
  index_search index q k = Returned hits ->
  Forall (fun h : distance * Z => h.2 = -1 \/ 0 <= h.2 < Z.of_nat (ntotal index)) hits.
Proof.
  unfold index_search.
  destruct (negb (length q =? index_d index)%nat); [discriminate|].
  destruct (negb (0 <? k)); [discriminate|].
  intros [= <-]. apply Forall_app. split.
  - apply Forall_map. apply Forall_take. apply sort_hits_Forall.
    eapply Forall_impl; [apply (label_rows_labels q 0 (index_xb index))|].
    cbn. unfold len, ntotal. intros h Hh. right. lia.
  - apply Forall_replicate. left. reflexivity.
Qed.

(** When the index holds at least [k] rows no filler is reported. *)
Lemma index_search_within_total index q k :
  length q = index_d index ->
  0 < k <= Z.of_nat (ntotal index) ->
  exists hits,
    index_search index q k = Returned hits
    /\ length hits = Z.to_nat k
    /\ Forall (fun h : distance * Z => 0 <= h.2 < Z.of_nat (ntotal index)) hits.
Proof.
  intros Hd Hk. unfold index_search.
  rewrite (proj2 (Nat.eqb_eq _ _) Hd). cbn [negb].
  rewrite (proj2 (Z.ltb_lt 0 k)) by lia. cbn [negb].
  eexists. split; [reflexivity|].
  assert (Hlen : length (take (Z.to_nat k) (sort_hits (label_rows q 0 (index_xb index))))
                 = Z.to_nat k).
  { rewrite length_take, sort_hits_length, label_rows_length. unfold ntotal in Hk. lia. }
  rewrite length_map, Hlen, Nat.sub_diag. cbn [replicate]. rewrite app_nil_r.
  split; [by rewrite length_map|].
  apply Forall_map. apply Forall_take. apply sort_hits_Forall.
  eapply Forall_impl; [apply (label_rows_labels q 0 (index_xb index))|].
  cbn. unfold len, ntotal. intros h Hh. lia.
Qed.

(** ** Assembling the results *)

Lemma py_getitem_in_range {A} (l : list A) (i : Z) :
  0 <= i < len l -> exists x, py_getitem l i = Returned x /\ l !! Z.to_nat i = Some x.
Proof.
  intros Hi. unfold py_getitem, len in *.
  rewrite (proj2 (Z.ltb_ge i 0)) by lia.
  rewrite (proj2 (Z.ltb_ge i 0)) by lia.
  destruct (lookup_lt_is_Some_2 l (Z.to_nat i)) as [x Hx]; [lia|].
  rewrite Hx. eauto.
Qed.

(** The filler label reads the last chunk of a non-empty list. *)
Lemma py_getitem_minus_one {A} (l : list A) (x : A) :
  py_getitem (l ++ [x]) (-1) = Returned x.
Proof.
  unfold py_getitem, len. rewrite length_app. cbn [length].
  replace (-1 <? 0) with true by reflexivity.
  rewrite (proj2 (Z.ltb_ge _ 0)) by lia.
  replace (Z.to_nat (Z.of_nat (length l + 1) + -1)) with (length l + 0)%nat by lia.
  rewrite lookup_app_r by lia. replace (length l + 0 - length l)%nat with 0%nat by lia.
  reflexivity.
Qed.

Lemma collect_results_in_range chunks hits results :
  Forall (fun h : distance * Z => 0 <= h.2 < len chunks) hits ->
  exists out, collect_results chunks hits results = Returned out
              /\ length out = (length results + length hits)%nat.
Proof.
  intros Hall. revert results.
  induction Hall as [|[dist idx] rest Hh Hrest IH]; intros results; cbn [collect_results].
  - exists results. split; [reflexivity|]. cbn [length]. lia.
  - cbn in Hh. rewrite (proj2 (Z.ltb_lt idx (len chunks))) by lia.
    destruct (py_getitem_in_range chunks idx Hh) as [chunk [-> _]]. cbn [obind].
    destruct (IH (results ++ [(chunk, dist)])) as [out [-> Hlen]].
    exists out. split; [reflexivity|].
    rewrite Hlen, length_app. cbn [length]. lia.
Qed.

(** A label at or past the end of the chunk list is skipped. *)
Lemma collect_results_skips_high chunks dist idx hits results :
  len chunks <= idx ->
  collect_results chunks ((dist, idx) :: hits) results = collect_results chunks hits results.
Proof.
  intros H. cbn [collect_results]. by rewrite (proj2 (Z.ltb_ge idx (len chunks))) by lia.
Qed.

(** With labels that are row numbers or the filler, and a non-empty chunk
    list, the loop never raises [IndexError]. *)
Lemma collect_results_returns chunks hits results :
  chunks <> [] ->
  Forall (fun h : distance * Z => -1 <= h.2) hits ->
  exists out, collect_results chunks hits results = Returned out.
Proof.
  intros Hne Hall. revert results.
  induction Hall as [|[dist idx] rest Hh Hrest IH]; intros results; cbn [collect_results].
  - eauto.
  - cbn in Hh. destruct (idx <? len chunks) eqn:Hlt; [|apply IH].
    apply Z.ltb_lt in Hlt.
    assert (Hget : exists chunk, py_getitem chunks idx = Returned chunk).
    { destruct (decide (idx = -1)) as [->|Hidx].
      - destruct (exists_last Hne) as [l [x ->]]. exists x. apply py_getitem_minus_one.
      - destruct (py_getitem_in_range chunks idx) as [x [Hx _]]; [lia|eauto]. }
    destruct Hget as [chunk ->]. cbn [obind]. apply IH.
Qed.

Section ClampFacts.

Variable embed_query : string -> outcome vec.

(** C7: on an index whose stored rows are aligned with the [n] stored
    chunks, a query whose embedding succeeds returns exactly [min k n]
    results. *)
Theorem search_similar_clamps_k
    (fs : Storage) (repo_id query : string) (k : Z)
    (index : IndexFlatL2) (chunks : list LineNumberChunk) (v : vec) :
  fs !! index_path repo_id = Some (FaissFile index) ->
  fs !! chunks_path repo_id = Some (ChunksPickle chunks) ->
  ntotal index = length chunks ->
  embed_query query = Returned v ->
  length v = index_d index ->
  0 <= k ->
  exists results,
    search_similar embed_query fs repo_id query k = Returned results
    /\ len results = Z.min k (len chunks).
Proof.
  intros Hidx Hchunks Hn Hq Hd Hk.
  unfold search_similar, has_index, path_exists.
  rewrite (bool_decide_eq_true_2 _ (mk_is_Some _ _ Hidx)).
  rewrite (bool_decide_eq_true_2 _ (mk_is_Some _ _ Hchunks)).
  cbn [andb negb]. unfold search_similar_body, read_index, pickle_load_chunks.
  rewrite Hidx, Hchunks, Hq. cbn [obind].
  destruct (decide (0 < Z.min k (len chunks))) as [Hpos|Hzero].
  - destruct (index_search_within_total index v (Z.min k (len chunks)) Hd)
      as [hits [-> [Hlen Hall]]]; [rewrite Hn; unfold len in *; lia|].
    cbn [obind]. rewrite Hn in Hall.
    destruct (collect_results_in_range chunks hits [] Hall) as [out [-> Hout]].
    cbn [try_except]. exists out. split; [reflexivity|].
    unfold len in *. cbn [length] in Hout. lia.
  - unfold index_search.
    destruct (negb (length v =? index_d index)%nat); cbn [obind try_except].
    + exists []. split; [reflexivity|]. unfold len in *. cbn [length]. lia.
    + rewrite (proj2 (Z.ltb_ge 0 (Z.min k (len chunks)))) by lia.
      cbn [negb obind try_except].
      exists []. split; [reflexivity|]. unfold len in *. cbn [length]. lia.
Qed.

End ClampFacts.

(** ** Order of the results *)

Lemma insert_hit_sorted h hits :
  StronglySorted hit_le hits -> StronglySorted hit_le (insert_hit h hits).
Proof.
  induction 1 as [|h' rest Hrest IH Hall]; cbn [insert_hit].
  - repeat constructor.
  - destruct (h.1 <=? h'.1) eqn:Hle.
    + apply Z.leb_le in Hle. constructor; [by constructor|].
      constructor; [exact Hle|].
      eapply Forall_impl; [exact Hall|]. unfold hit_le. intros x Hx. lia.
    + apply Z.leb_gt in Hle. constructor; [exact IH|].
      apply insert_hit_Forall; [unfold hit_le; lia|exact Hall].
Qed.

Lemma sort_hits_sorted hits : StronglySorted hit_le (sort_hits hits).
Proof.
  induction hits as [|h rest IH]; cbn [sort_hits]; [constructor|].
  by apply insert_hit_sorted.
Qed.

Lemma StronglySorted_map {A B} (R : relation A) (R' : relation B) (f : A -> B) l :
  (forall a b, R a b -> R' (f a) (f b)) ->
  StronglySorted R l -> StronglySorted R' (map f l).
Proof.
  intros Hf. induction 1 as [|x rest Hrest IH Hall]; cbn [map]; constructor; [exact IH|].
  apply Forall_map. eapply Forall_impl; [exact Hall|]. intros y Hy. by apply Hf.
Qed.

Lemma StronglySorted_take {A} (R : relation A) n l :
  StronglySorted R l -> StronglySorted R (take n l).
Proof.
  intros H. rewrite <- (take_drop n l) in H. by apply StronglySorted_app_1_l in H.
Qed.

Lemma map_replicate {A B} (f : A -> B) n x : map f (replicate n x) = replicate n (f x).
Proof. induction n as [|n IH]; cbn [replicate map]; [reflexivity|]. by rewrite IH. Qed.

(** A search reports its pairs by ascending distance, fillers last. *)
Lemma index_search_sorted index q k hits :
  index_search index q k = Returned hits ->
  StronglySorted dist_le (map fst hits).
Proof.
  unfold index_search.
  destruct (negb (length q =? index_d index)%nat); [discriminate|].
  destruct (negb (0 <? k)); [discriminate|].
  intros [= <-]. rewrite map_app, map_replicate. cbn [fst].
  apply StronglySorted_app_2.
  - intros a b Ha Hb. apply elem_of_replicate in Hb as [-> _].
    unfold dist_le. by destruct a.
  - rewrite map_map. cbn [fst].
    apply (StronglySorted_map hit_le); [|apply StronglySorted_take, sort_hits_sorted].
    intros a b Hab. unfold dist_le, hit_le in *. cbn. by apply Z.leb_le.
  - generalize (Z.to_nat k - length
        (map (fun h : Z * Z => (Dist h.1, h.2))
           (take (Z.to_nat k) (sort_hits (label_rows q 0 (index_xb index))))))%nat.
    intros n. induction n as [|n IH]; cbn [replicate]; constructor; [exact IH|].
    apply Forall_replicate. reflexivity.
Qed.

Lemma collect_results_sorted chunks hits results out :
  StronglySorted dist_le (map snd results ++ map fst hits) ->
  collect_results chunks hits results = Returned out ->
  StronglySorted dist_le (map snd out).
Proof.
  revert results.
  induction hits as [|[dist idx] rest IH]; intros results Hs; cbn [collect_results].
  - intros [= <-]. cbn [map] in Hs. by rewrite app_nil_r in Hs.
  - destruct (idx <? len chunks).
    + destruct (py_getitem chunks idx) as [chunk|e]; cbn [obind]; [|discriminate].
      apply IH. rewrite map_app. cbn [map snd]. by rewrite <- app_assoc.
    + apply IH. cbn [map fst] in Hs.
      apply StronglySorted_app in Hs as (Hcross & Hl & Hr).
      apply StronglySorted_cons in Hr as [_ Hr].
      apply StronglySorted_app_2; [|exact Hl|exact Hr].
      intros a b Ha Hb. apply Hcross; [exact Ha|]. by apply list_elem_of_further.
Qed.

(** Every result of the loop pairs a reported distance with the chunk
    that Python indexing gives for a reported label below the length of the
    chunk list. *)
Lemma collect_results_provenance chunks hits results out :
  collect_results chunks hits results = Returned out ->
  Forall (fun r : LineNumberChunk * distance =>
            In r results
            \/ exists idx, In (r.2, idx) hits /\ idx < len chunks
                           /\ py_getitem chunks idx = Returned r.1) out.
Proof.
  revert results.
  induction hits as [|[dist idx] rest IH]; intros results; cbn [collect_results].
  - intros [= <-]. apply Forall_forall. intros r Hr. left. by apply list_elem_of_In.
  - destruct (idx <? len chunks) eqn:Hlt.
    + destruct (py_getitem chunks idx) as [chunk|e] eqn:Hget; cbn [obind]; [|discriminate].
      intros H. apply IH in H. eapply Forall_impl; [exact H|].
      intros r [Hr|[i (Hi & Hlen & Hg)]].
      * apply in_app_or in Hr as [Hr|[<-|[]]]; [by left|].
        right. exists idx. cbn [fst snd]. split; [by left|].
        split; [by apply Z.ltb_lt|exact Hget].
      * right. exists i. split; [by right|]. by split.
    + intros H. apply IH in H. eapply Forall_impl; [exact H|].
      intros r [Hr|[i (Hi & Hlen & Hg)]]; [by left|].
      right. exists i. split; [by right|]. by split.
Qed.

Section OrderFacts.

Variable embed_query : string -> outcome vec.

(** [search_similar] returns its results by ascending distance. *)
Lemma search_similar_sorted fs repo_id query k results :
  search_similar embed_query fs repo_id query k = Returned results ->
  StronglySorted dist_le (map snd results).
Proof.
  unfold search_similar.
  destruct (negb (has_index fs repo_id)); [intros [= <-]; constructor|].
  unfold search_similar_body.
  destruct (read_index fs (index_path repo_id)) as [index|e1];
    [|intros [= <-]; constructor].
  destruct (pickle_load_chunks fs (chunks_path repo_id)) as [chunks|e2];
    [|intros [= <-]; constructor].
  destruct (embed_query query) as [v|e3]; [|intros [= <-]; constructor].
  cbn [obind].
  destruct (index_search index v (Z.min k (len chunks))) as [hits|e4] eqn:Hs;
    [|intros [= <-]; constructor].
  cbn [obind].
  destruct (collect_results chunks hits []) as [out|e5] eqn:Hc;
    [|intros [= <-]; constructor].
  intros [= <-]. eapply collect_results_sorted; [|exact Hc].
  cbn [map app]. by eapply index_search_sorted.
Qed.

End OrderFacts.

(** ** Sample runs *)

(** Rows at the same distance are reported in the order they were added. *)
Example index_search_ties :
  index_search {| index_d := 1; index_xb := [[4]; [-4]; [1]] |} [0] 3
  = Returned [(Dist 1, 2); (Dist 16, 0); (Dist 16, 1)].
Proof. reflexivity. Qed.

(** The sample index of three chunks queried with [k = 10]. *)
Lemma search_similar_clamps_k_witness :
  exists results,
    search_similar steady_query indexed_storage "demo" "how are files parsed" 10
      = Returned results
    /\ len results = Z.min 10 (len three_chunks).
Proof.
  apply (search_similar_clamps_k steady_query indexed_storage "demo" "how are files parsed" 10
           demo_index three_chunks (length_embedding "how are files parsed")).
  - vm_compute. reflexivity.
  - vm_compute. reflexivity.
  - reflexivity.
  - reflexivity.
  - reflexivity.
  - lia.
Defined.

(** Three segments with vectors of dimension 8, queried with [k = 10]:
    three results. *)
Example search_similar_three_of_ten :
  search_similar steady_query indexed_storage "demo" "how are files parsed" 10
  = Returned [(chunk_a, Dist 100); (chunk_b, Dist 169); (chunk_c, Dist 324)].
Proof. vm_compute. reflexivity. Qed.

(** The build performed by a model that answers three texts with two
    vectors succeeds and leaves the misaligned directory. *)
Example create_index_short_answer :
  create_index short_documents ∅ "demo" three_chunks = (true, misaligned_storage).
Proof. vm_compute. reflexivity. Qed.

(** C10, on a directory whose index holds two rows and whose chunk list
    holds three chunks: the search for [min 5 3] neighbours reports the labels
    0, 1 and the filler [-1]; the filler passes the test [idx < len chunks]
    and is read as [chunks[-1]], so the last chunk is returned as a result
    although its label is no position of the list. *)
Theorem search_similar_reads_filler_label :
  index_search two_row_index (length_embedding "how are files parsed")
      (Z.min 5 (len three_chunks))
    = Returned [(Dist 100, 0); (Dist 169, 1); (FltMax, -1)]
  /\ search_similar steady_query misaligned_storage "demo" "how are files parsed" 5
     = Returned [(chunk_a, Dist 100); (chunk_b, Dist 169); (chunk_c, FltMax)].
Proof. split; vm_compute; reflexivity. Qed.

(** A chunk file that cannot be unpickled: the search returns the empty
    list. *)
Example search_similar_corrupt_chunks :
  has_index corrupt_storage "demo" = true
  /\ search_similar steady_query corrupt_storage "demo" "how are files parsed" 5 = Returned [].
Proof. split; vm_compute; reflexivity. Qed.

(** The statistics of an index whose header record is missing: [has_index]
    holds and [get_index_stats] answers [None]. *)
Example get_index_stats_headerless :
  has_index headerless_storage "demo" = true
  /\ get_index_stats headerless_storage "demo" = Returned None.
Proof. split; vm_compute; reflexivity. Qed.

(** [/ask] on the indexed sample repository: an answer over three chunks
    when the model is up, the empty-result answer when it raises. *)
Example ask_question_samples :
  ask_question steady_query demo_repo_id canned_llm indexed_storage
      "https://github.com/octo/demo" "how are files parsed"
    = {| body := AnswerBody "how are files parsed" "It parses files." 3; status := 200 |}
  /\ ask_question failing_query demo_repo_id canned_llm indexed_storage
       "https://github.com/octo/demo" "how are files parsed"
     = empty_result_response "how are files parsed".
Proof. split; vm_compute; reflexivity. Qed.

(** * Further properties of the build *)

(** ** File names *)

Lemma string_length_app a s :
  String.length (a +:+ s) = (String.length a + String.length s)%nat.
Proof.
  induction a as [|c a IH]; [reflexivity|].
  change (S (String.length (a +:+ s)) = S (String.length a + String.length s)).
  by rewrite IH.
Qed.

Lemma string_app_assoc a b c : (a +:+ b) +:+ c = a +:+ (b +:+ c).
Proof.
  induction a as [|x a IH]; [reflexivity|].
  change (String x ((a +:+ b) +:+ c) = String x (a +:+ (b +:+ c))).
  by rewrite IH.
Qed.

Lemma string_app_suffix_inj a b s t :
  a +:+ s = b +:+ t -> String.length s = String.length t -> a = b /\ s = t.
Proof.
  revert b. induction a as [|x a IH]; intros [|y b] H Hlen.
  - by split.
  - exfalso. apply (f_equal String.length) in H.
    change (String.length s = S (String.length (b +:+ t))) in H.
    rewrite string_length_app in H. lia.
  - exfalso. apply (f_equal String.length) in H.
    change (S (String.length (a +:+ s)) = String.length t) in H.
    rewrite string_length_app in H. lia.
  - change (String x (a +:+ s) = String y (b +:+ t)) in H.
    injection H as -> H. destruct (IH b H Hlen) as [-> ->]. by split.
Qed.

Lemma index_path_inj r r' : index_path r = index_path r' -> r = r'.
Proof. intros H. by apply string_app_suffix_inj in H as [-> _]. Qed.

Lemma chunks_path_inj r r' : chunks_path r = chunks_path r' -> r = r'.
Proof. intros H. by apply string_app_suffix_inj in H as [-> _]. Qed.

Lemma info_path_inj r r' : info_path r = info_path r' -> r = r'.
Proof. intros H. by apply string_app_suffix_inj in H as [-> _]. Qed.

Lemma index_path_chunks_path r r' : index_path r <> chunks_path r'.
Proof.
  unfold index_path, chunks_path. intros H.
  change "_chunks.pkl" with ("_chun" +:+ "ks.pkl") in H.
  rewrite <- string_app_assoc in H.
  apply string_app_suffix_inj in H as [_ H]; [discriminate H|reflexivity].
Qed.

Lemma index_path_info_path r r' : index_path r <> info_path r'.
Proof.
  unfold index_path, info_path. intros H.
  change "_info.pkl" with ("_in" +:+ "fo.pkl") in H.
  rewrite <- string_app_assoc in H.
  apply string_app_suffix_inj in H as [_ H]; [discriminate H|reflexivity].
Qed.

Lemma chunks_path_info_path r r' : chunks_path r <> info_path r'.
Proof.
  unfold chunks_path, info_path. intros H.
  change "_chunks.pkl" with ("_c" +:+ "hunks.pkl") in H.
  rewrite <- string_app_assoc in H.
  apply string_app_suffix_inj in H as [_ H]; [discriminate H|reflexivity].
Qed.

(** Files of different repositories have different names. *)
Lemma artifact_paths_disjoint r r' p p' :
  r <> r' -> In p (artifact_paths r) -> In p' (artifact_paths r') -> p <> p'.
Proof.
  intros Hne Hp Hp' Heq. subst p'.
  pose proof (index_path_chunks_path r r'). pose proof (index_path_chunks_path r' r).
  pose proof (index_path_info_path r r'). pose proof (index_path_info_path r' r).
  pose proof (chunks_path_info_path r r'). pose proof (chunks_path_info_path r' r).
  unfold artifact_paths in *. cbn [In] in *.
  destruct Hp as [<-|[<-|[<-|[]]]]; destruct Hp' as [Hp'|[Hp'|[Hp'|[]]]];
    first [ congruence
          | apply Hne; symmetry; first [ by apply index_path_inj
                                       | by apply chunks_path_inj
                                       | by apply info_path_inj ] ].
Qed.

(** ** Batches *)

Lemma concat_slices {A} (l : list A) m :
  concat (map (fun j => take batch_size (drop (j * batch_size) l)) (seq 0 m))
  = take (m * batch_size) l.
Proof.
  induction m as [|m IH].
  - cbn. by rewrite take_0.
  - rewrite seq_S, map_app, concat_app, IH. cbn [map concat Nat.add].
    rewrite app_nil_r, take_take_drop. f_equal. lia.
Qed.

Lemma batches_of_concat texts : concat (batches_of texts) = texts.
Proof.
  unfold batches_of, batch_starts, py_slice. rewrite map_map.
  erewrite map_ext; [rewrite concat_slices|].
  - apply take_ge. unfold batch_size.
    pose proof (Nat.div_mod_eq (length texts + 100 - 1) 100).
    pose proof (Nat.mod_upper_bound (length texts + 100 - 1) 100). lia.
  - intros j. cbn beta. f_equal. lia.
Qed.

Lemma batches_of_sizes texts :
  Forall (fun batch => (0 < length batch <= batch_size)%nat) (batches_of texts).
Proof.
  unfold batches_of, batch_starts, py_slice. rewrite map_map.
  apply Forall_map, Forall_forall. intros j Hj.
  apply list_elem_of_In, in_seq in Hj. cbn beta.
  rewrite length_take, length_drop. unfold batch_size in *.
  pose proof (Nat.div_mod_eq (length texts + 100 - 1) 100).
  pose proof (Nat.mod_upper_bound (length texts + 100 - 1) 100). lia.
Qed.

(** ** What a build leaves *)

Lemma np_array_returned rs a :
  np_array rs = Returned a ->
  rows a = rs /\ shape_0 a = length rs
  /\ forall d, shape_1 a = Some d -> Forall (fun r => length r = d) rs.
Proof.
  unfold np_array. destruct rs as [|r rs'].
  - intros [= <-]. cbn. repeat split. discriminate.
  - destruct (forallb _ _) eqn:Hall; [|discriminate].
    intros [= <-]. cbn [rows shape_0 shape_1]. repeat split.
    intros d [= <-]. apply Forall_forall. intros x Hx.
    rewrite forallb_forall in Hall. apply Nat.eqb_eq, Hall. by apply list_elem_of_In.
Qed.

Section BuildResult.

Variable embed_documents : nat -> list string -> outcome (list vec).

(** A successful run of the embedding loop returns the answers of the
    model to the batches, concatenated in batch order after what was
    already collected. *)
Lemma embed_batches_returned texts starts embeddings out :
  embed_batches embed_documents texts starts embeddings = Returned out ->
  exists answers,
    Forall2 (fun i vs => embed_documents (i / batch_size)
                           (py_slice texts i (i + batch_size)) = Returned vs)
      starts answers
    /\ out = embeddings ++ concat answers.
Proof.
  revert embeddings.
  induction starts as [|i starts IH]; intros embeddings; cbn [embed_batches].
  - intros [= <-]. exists []. split; [constructor|]. cbn. by rewrite app_nil_r.
  - destruct (embed_documents (i / batch_size) (py_slice texts i (i + batch_size)))
      as [vs|e] eqn:Hi; cbn [try_except obind]; [|discriminate].
    intros H. destruct (IH _ H) as [answers [Hall ->]].
    exists (vs :: answers). split; [by constructor|]. cbn [concat]. by rewrite <- app_assoc.
Qed.

Lemma embed_batches_answers texts starts embeddings answers :
  Forall2 (fun i vs => embed_documents (i / batch_size)
                         (py_slice texts i (i + batch_size)) = Returned vs)
    starts answers ->
  embed_batches embed_documents texts starts embeddings
  = Returned (embeddings ++ concat answers).
Proof.
  intros Hall. revert embeddings.
  induction Hall as [|i vs starts answers Hi Hall IH]; intros embeddings; cbn [embed_batches].
  - cbn. by rewrite app_nil_r.
  - rewrite Hi. cbn [try_except obind]. rewrite IH. cbn [concat]. by rewrite <- app_assoc.
Qed.

(** The two outcomes of [create_index], whatever the directory: nothing
    written, or the three files written over it. *)
Lemma create_index_shape repo_id chunks :
  (forall fs, create_index embed_documents fs repo_id chunks = (false, fs))
  \/ exists out d,
       chunks <> []
       /\ embed_batches embed_documents (map enriched_text chunks)
            (batch_starts (length chunks)) [] = Returned out
       /\ out <> [] /\ d <> 0%nat /\ Forall (fun r => length r = d) out
       /\ forall fs,
            create_index embed_documents fs repo_id chunks
            = (true, with_artifacts fs repo_id {| index_d := d; index_xb := out |} chunks).
Proof.
  destruct chunks as [|c chunks]; [by left|].
  unfold create_index, create_index_body, embed_chunks. rewrite length_map.
  destruct (embed_batches embed_documents (map enriched_text (c :: chunks))
              (batch_starts (length (c :: chunks))) []) as [out|e] eqn:Hb;
    cbn [obind]; [|by left].
  destruct (np_array out) as [a|e] eqn:Ha; [|by left].
  destruct (np_array_returned out a Ha) as (Hrows & Hn & Hd).
  destruct (ndarray_size a =? 0)%nat eqn:Hsize; [by left|].
  apply Nat.eqb_neq in Hsize. unfold ndarray_size in Hsize.
  destruct (shape_1 a) as [d|] eqn:Hs; [|by left].
  right. exists out, d. rewrite Hrows.
  split; [discriminate|]. split; [reflexivity|].
  split; [intros ->; cbn in Hn; lia|]. split; [lia|]. split; [by apply Hd|reflexivity].
Qed.

End BuildResult.

Section BuildTheorems.

Variable embed_documents : nat -> list string -> outcome (list vec).

(** X1: the batches of [embed_chunks] cut the text list into consecutive
    pieces: put back together in order they are the list itself, and each
    batch holds between 1 and 100 texts. *)
Theorem embed_batches_partition (texts : list string) :
  concat (batches_of texts) = texts
  /\ Forall (fun batch => (0 < length batch <= batch_size)%nat) (batches_of texts).
Proof. split; [apply batches_of_concat|apply batches_of_sizes]. Qed.

(** X2: when [create_index] answers [True], the repository has an index:
    the chunk file holds the given chunks, the index file holds a non-empty
    index of positive dimension whose rows all have that dimension, and
    [get_index_stats] reports the number of chunks, that dimension and the
    repository id. *)
Theorem create_index_true_artifacts
    (fs fs' : Storage) (repo_id : string) (chunks : list LineNumberChunk) :
  create_index embed_documents fs repo_id chunks = (true, fs') ->
  has_index fs' repo_id = true
  /\ pickle_load_chunks fs' (chunks_path repo_id) = Returned chunks
  /\ exists index,
       read_index fs' (index_path repo_id) = Returned index
       /\ (0 < index_d index)%nat /\ (0 < ntotal index)%nat
       /\ Forall (fun row => length row = index_d index) (index_xb index)
       /\ get_index_stats fs' repo_id
          = Returned (Some {| total_chunks := length chunks;
                              dimension := index_d index;
                              info_repo_id := repo_id |}).
Proof.
  intros H.
  destruct (create_index_shape embed_documents repo_id chunks)
    as [Hc|(out & d & Hne & Hb & Hout & Hd & Hall & Hc)]; rewrite (Hc fs) in H;
    [discriminate H|].
  injection H as <-. unfold with_artifacts. cbn [index_d].
  pose proof (info_path_not_index_path repo_id) as Hii.
  pose proof (info_path_not_chunks_path repo_id) as Hic.
  pose proof (index_path_not_chunks_path repo_id) as Hxc.
  assert (Hidx : has_index
            (with_artifacts fs repo_id {| index_d := d; index_xb := out |} chunks)
            repo_id = true).
  { unfold has_index, path_exists, with_artifacts.
    rewrite lookup_insert_ne, lookup_insert_ne, lookup_insert_eq by done.
    rewrite lookup_insert_ne, lookup_insert_eq by done.
    apply andb_true_iff. split; apply bool_decide_eq_true; eauto. }
  split; [exact Hidx|]. split.
  { unfold pickle_load_chunks. by rewrite lookup_insert_ne, lookup_insert_eq by done. }
  exists {| index_d := d; index_xb := out |}. split.
  { unfold read_index. by rewrite lookup_insert_ne, lookup_insert_ne, lookup_insert_eq by done. }
  cbn [index_d index_xb ntotal]. split; [lia|]. split.
  { unfold ntotal. cbn [index_xb]. destruct out; [contradiction|cbn; lia]. }
  split; [exact Hall|].
  unfold with_artifacts in Hidx. cbn [index_d] in Hidx.
  unfold get_index_stats. rewrite Hidx. cbn [negb].
  unfold path_exists, pickle_load_info. rewrite lookup_insert_eq.
  rewrite bool_decide_eq_true_2 by eauto. reflexivity.
Qed.

(** X3: when the model answers every batch with as many vectors as it was
    given texts, a build that answers [True] has stored exactly one index row
    per chunk. *)
Theorem create_index_rows_match_chunks
    (fs fs' : Storage) (repo_id : string) (chunks : list LineNumberChunk) :
  (forall n batch vs, embed_documents n batch = Returned vs -> length vs = length batch) ->
  create_index embed_documents fs repo_id chunks = (true, fs') ->
  exists index,
    read_index fs' (index_path repo_id) = Returned index
    /\ ntotal index = length chunks.
Proof.
  intros Hlen H.
  destruct (create_index_shape embed_documents repo_id chunks)
    as [Hc|(out & d & Hne & Hb & Hout & Hd & Hall & Hc)]; rewrite (Hc fs) in H;
    [discriminate H|].
  injection H as <-. unfold with_artifacts. cbn [index_d].
  exists {| index_d := d; index_xb := out |}. split.
  { unfold read_index.
    rewrite lookup_insert_ne by apply info_path_not_index_path.
    rewrite lookup_insert_ne
      by (intros E; symmetry in E; by apply index_path_not_chunks_path in E).
    by rewrite lookup_insert_eq. }
  unfold ntotal. cbn [index_xb].
  apply embed_batches_returned in Hb as [answers [Hans ->]]. cbn [app].
  transitivity (length (concat (batches_of (map enriched_text chunks))));
    [|by rewrite batches_of_concat, length_map].
  unfold batches_of. rewrite length_map.
  clear Hc Hout Hall.
  revert Hans. generalize (batch_starts (length chunks)) as starts.
  intros starts Hans.
  induction Hans as [|i vs starts answers Hi Hans IH]; [reflexivity|].
  cbn [map concat]. rewrite !length_app, IH. f_equal. by apply Hlen in Hi.
Qed.

End BuildTheorems.

(** ** A build and the rest of the directory *)

Lemma with_artifacts_lookup_other fs repo_id index chunks p :
  ~ In p (artifact_paths repo_id) ->
  with_artifacts fs repo_id index chunks !! p = fs !! p.
Proof.
  intros Hp. unfold with_artifacts, artifact_paths in *. cbn [In] in Hp.
  rewrite !lookup_insert_ne by (intros E; apply Hp; auto). reflexivity.
Qed.

Lemma with_artifacts_twice fs repo_id index chunks index' chunks' :
  with_artifacts (with_artifacts fs repo_id index chunks) repo_id index' chunks'
  = with_artifacts fs repo_id index' chunks'.
Proof.
  unfold with_artifacts. apply map_eq. intros p.
  rewrite !lookup_insert. repeat case_decide; reflexivity.
Qed.

Lemma with_artifacts_is_Some fs repo_id index chunks p :
  is_Some (fs !! p) -> is_Some (with_artifacts fs repo_id index chunks !! p).
Proof.
  intros H. unfold with_artifacts.
  rewrite !lookup_insert. repeat case_decide; eauto.
Qed.

(** Readers of a repository only look at its three files. *)
Lemma has_index_same_files fs fs' repo_id :
  (forall p, In p (artifact_paths repo_id) -> fs' !! p = fs !! p) ->
  has_index fs' repo_id = has_index fs repo_id.
Proof.
  intros H. unfold has_index, path_exists, artifact_paths in *. cbn [In] in H.
  rewrite (H (index_path repo_id)), (H (chunks_path repo_id)) by auto. reflexivity.
Qed.

Lemma search_similar_same_files embed_query fs fs' repo_id query k :
  (forall p, In p (artifact_paths repo_id) -> fs' !! p = fs !! p) ->
  search_similar embed_query fs' repo_id query k = search_similar embed_query fs repo_id query k.
Proof.
  intros H. unfold search_similar. rewrite (has_index_same_files fs fs' repo_id H).
  unfold search_similar_body, read_index, pickle_load_chunks, artifact_paths in *.
  cbn [In] in H.
  rewrite (H (index_path repo_id)), (H (chunks_path repo_id)) by auto. reflexivity.
Qed.

Lemma get_index_stats_same_files fs fs' repo_id :
  (forall p, In p (artifact_paths repo_id) -> fs' !! p = fs !! p) ->
  get_index_stats fs' repo_id = get_index_stats fs repo_id.
Proof.
  intros H. unfold get_index_stats. rewrite (has_index_same_files fs fs' repo_id H).
  unfold path_exists, pickle_load_info, artifact_paths in *. cbn [In] in H.
  rewrite (H (info_path repo_id)) by auto. reflexivity.
Qed.

Section BuildFrame.

Variable embed_documents : nat -> list string -> outcome (list vec).

Lemma create_index_lookup_other fs repo_id chunks other p :
  repo_id <> other -> In p (artifact_paths other) ->
  (create_index embed_documents fs repo_id chunks).2 !! p = fs !! p.
Proof.
  intros Hne Hp.
  destruct (create_index_shape embed_documents repo_id chunks)
    as [Hc|(out & d & _ & _ & _ & _ & _ & Hc)]; rewrite (Hc fs); [reflexivity|].
  cbn [snd]. apply with_artifacts_lookup_other. intros Hin.
  by apply (artifact_paths_disjoint repo_id other p p Hne Hin Hp).
Qed.

(** X5: for repository ids that are single path components (no slash,
    so that different file names are different files of the storage
    directory), a build for one repository, whether it succeeds or fails,
    leaves every other repository as it was: same answer of [has_index], same
    statistics, same results of every search. *)
Theorem create_index_other_repositories
    (fs : Storage) (repo_id other : string) (chunks : list LineNumberChunk) :
  plain_name repo_id = true ->
  plain_name other = true ->
  repo_id <> other ->
  has_index (create_index embed_documents fs repo_id chunks).2 other = has_index fs other
  /\ get_index_stats (create_index embed_documents fs repo_id chunks).2 other
     = get_index_stats fs other
  /\ forall embed_query query k,
       search_similar embed_query (create_index embed_documents fs repo_id chunks).2
         other query k
       = search_similar embed_query fs other query k.
Proof.
  intros _ _ Hne.
  pose proof (fun p => create_index_lookup_other fs repo_id chunks other p Hne) as Hsame.
  split; [by apply has_index_same_files|].
  split; [by apply get_index_stats_same_files|].
  intros embed_query query k. by apply search_similar_same_files.
Qed.

(** X6: a rebuild that answers [True] leaves the directory that the same
    build leaves when run in place of the earlier one: no file of the
    earlier index of that repository survives. *)
Theorem create_index_rebuild_replaces
    (fs fs' : Storage) (repo_id : string) (earlier chunks : list LineNumberChunk) :
  create_index embed_documents fs repo_id chunks = (true, fs') ->
  create_index embed_documents (create_index embed_documents fs repo_id earlier).2
    repo_id chunks = (true, fs').
Proof.
  intros H.
  destruct (create_index_shape embed_documents repo_id chunks)
    as [Hc|(out & d & _ & _ & _ & _ & _ & Hc)]; rewrite (Hc fs) in H; [discriminate H|].
  injection H as <-. rewrite Hc.
  destruct (create_index_shape embed_documents repo_id earlier)
    as [He|(out' & d' & _ & _ & _ & _ & _ & He)]; rewrite (He fs); [reflexivity|].
  cbn [snd]. by rewrite with_artifacts_twice.
Qed.

(** X7: no build removes an index: a repository for which [has_index]
    held before a call of [create_index], for any repository, still has it
    afterwards. *)
Theorem create_index_keeps_indexes
    (fs : Storage) (repo_id indexed : string) (chunks : list LineNumberChunk) :
  has_index fs indexed = true ->
  has_index (create_index embed_documents fs repo_id chunks).2 indexed = true.
Proof.
  intros H.
  destruct (create_index_shape embed_documents repo_id chunks)
    as [Hc|(out & d & _ & _ & _ & _ & _ & Hc)]; rewrite (Hc fs); [exact H|].
  cbn [snd]. unfold has_index, path_exists in *.
  apply andb_true_iff in H as [H1 H2].
  apply bool_decide_eq_true in H1. apply bool_decide_eq_true in H2.
  apply andb_true_iff.
  split; apply bool_decide_eq_true; by apply with_artifacts_is_Some.
Qed.

End BuildFrame.

(** The build of the sample repository. *)
Lemma create_index_true_artifacts_witness :
  has_index indexed_storage "demo" = true
  /\ pickle_load_chunks indexed_storage (chunks_path "demo") = Returned three_chunks
  /\ exists index,
       read_index indexed_storage (index_path "demo") = Returned index
       /\ (0 < index_d index)%nat /\ (0 < ntotal index)%nat
       /\ Forall (fun row => length row = index_d index) (index_xb index)
       /\ get_index_stats indexed_storage "demo"
          = Returned (Some {| total_chunks := length three_chunks;
                              dimension := index_d index;
                              info_repo_id := "demo" |}).
Proof.
  apply (create_index_true_artifacts steady_documents ∅ indexed_storage "demo" three_chunks).
  vm_compute. reflexivity.
Defined.

Lemma create_index_rows_match_chunks_witness :
  exists index,
    read_index indexed_storage (index_path "demo") = Returned index
    /\ ntotal index = length three_chunks.
Proof.
  apply (create_index_rows_match_chunks steady_documents ∅ indexed_storage "demo" three_chunks).
  - intros n batch vs [= <-]. apply length_map.
  - vm_compute. reflexivity.
Defined.

(** A failing build of [other] next to the index of [demo]. *)
Lemma create_index_other_repositories_witness :
  has_index (create_index failing_second_request indexed_storage "other" many_chunks).2 "demo"
  = has_index indexed_storage "demo"
  /\ get_index_stats
       (create_index failing_second_request indexed_storage "other" many_chunks).2 "demo"
     = get_index_stats indexed_storage "demo"
  /\ forall embed_query query k,
       search_similar embed_query
         (create_index failing_second_request indexed_storage "other" many_chunks).2
         "demo" query k
       = search_similar embed_query indexed_storage "demo" query k.
Proof.
  apply (create_index_other_repositories failing_second_request indexed_storage
           "other" "demo" many_chunks).
  - reflexivity.
  - reflexivity.
  - discriminate.
Defined.

(** The sample repository rebuilt after a build of 150 chunks. *)
Lemma create_index_rebuild_replaces_witness :
  create_index steady_documents (create_index steady_documents ∅ "demo" many_chunks).2
    "demo" three_chunks = (true, indexed_storage).
Proof.
  apply (create_index_rebuild_replaces steady_documents ∅ indexed_storage "demo"
           many_chunks three_chunks).
  vm_compute. reflexivity.
Defined.

Lemma create_index_keeps_indexes_witness :
  has_index (create_index failing_second_request indexed_storage "demo" many_chunks).2 "demo"
  = true.
Proof.
  apply (create_index_keeps_indexes failing_second_request indexed_storage "demo" "demo"
           many_chunks).
  vm_compute. reflexivity.
Defined.

(** * Further properties of the search *)

Lemma py_getitem_In {A} (l : list A) (i : Z) (x : A) :
  py_getitem l i = Returned x -> In x l.
Proof.
  unfold py_getitem.
  destruct ((if i <? 0 then len l + i else i) <? 0); [discriminate|].
  destruct (l !! Z.to_nat (if i <? 0 then len l + i else i)) as [y|] eqn:Hy; [|discriminate].
  intros [= <-]. apply list_elem_of_In. by eapply list_elem_of_lookup_2.
Qed.

Lemma py_getitem_nonnegative {A} (l : list A) (i : Z) (x : A) :
  0 <= i -> py_getitem l i = Returned x -> l !! Z.to_nat i = Some x.
Proof.
  intros Hi. unfold py_getitem.
  rewrite (proj2 (Z.ltb_ge i 0)) by lia. rewrite (proj2 (Z.ltb_ge i 0)) by lia.
  destruct (l !! Z.to_nat i) as [y|]; [|discriminate]. by intros [= <-].
Qed.

Lemma collect_results_length chunks hits results out :
  collect_results chunks hits results = Returned out ->
  (length out <= length results + length hits)%nat.
Proof.
  revert results.
  induction hits as [|[dist idx] rest IH]; intros results; cbn [collect_results].
  - intros [= <-]. cbn [length]. lia.
  - destruct (idx <? len chunks).
    + destruct (py_getitem chunks idx) as [chunk|e]; cbn [obind]; [|discriminate].
      intros H. apply IH in H. rewrite length_app in H. cbn [length] in *. lia.
    + intros H. apply IH in H. cbn [length]. lia.
Qed.

Lemma label_rows_rows q start xb :
  Forall (fun h : Z * Z =>
            start <= h.2
            /\ exists row, xb !! Z.to_nat (h.2 - start) = Some row /\ h.1 = l2 q row)
    (label_rows q start xb).
Proof.
  revert start. induction xb as [|x rest IH]; intros start; cbn [label_rows]; [constructor|].
  constructor.
  - cbn [fst snd]. split; [lia|]. exists x. by rewrite Z.sub_diag.
  - eapply Forall_impl; [apply (IH (start + 1))|].
    intros [dd i]. cbn [fst snd]. intros [Hi (row & Hrow & Hdd)].
    split; [lia|]. exists row. split; [|exact Hdd].
    replace (Z.to_nat (i - start)) with (S (Z.to_nat (i - (start + 1)))) by lia.
    exact Hrow.
Qed.

Lemma index_search_rows index q k hits :
  index_search index q k = Returned hits ->
  Forall (hit_of_row (index_xb index) q) hits.
Proof.
  unfold index_search.
  destruct (negb (length q =? index_d index)%nat); [discriminate|].
  destruct (negb (0 <? k)); [discriminate|].
  intros [= <-]. apply Forall_app. split.
  - apply Forall_map, Forall_take, sort_hits_Forall.
    eapply Forall_impl; [apply (label_rows_rows q 0 (index_xb index))|].
    intros [dd i]. unfold hit_of_row. cbn [fst snd]. intros [Hi (row & Hrow & Hdd)].
    split; [exact Hi|]. exists row. rewrite Z.sub_0_r in Hrow. by split.
  - apply Forall_replicate. reflexivity.
Qed.

Section SearchResults.

Variable embed_query : string -> outcome vec.

(** A search returns the empty list, or what the loop assembles from the
    labels reported for the stored index and chunk list. *)
Lemma search_similar_inv fs repo_id query k results :
  search_similar embed_query fs repo_id query k = Returned results ->
  results = []
  \/ exists index chunks v hits,
       fs !! index_path repo_id = Some (FaissFile index)
       /\ fs !! chunks_path repo_id = Some (ChunksPickle chunks)
       /\ embed_query query = Returned v
       /\ index_search index v (Z.min k (len chunks)) = Returned hits
       /\ collect_results chunks hits [] = Returned results.
Proof.
  unfold search_similar.
  destruct (negb (has_index fs repo_id)); [intros [= <-]; by left|].
  unfold search_similar_body, read_index, pickle_load_chunks.
  destruct (fs !! index_path repo_id) as [[index| | |]|] eqn:Hi;
    try (intros [= <-]; by left).
  destruct (fs !! chunks_path repo_id) as [[|chunks| |]|] eqn:Hc;
    try (intros [= <-]; by left).
  cbn [obind].
  destruct (embed_query query) as [v|e] eqn:Hq; [|intros [= <-]; by left].
  cbn [obind].
  destruct (index_search index v (Z.min k (len chunks))) as [hits|e] eqn:Hs;
    [|intros [= <-]; by left].
  cbn [obind].
  destruct (collect_results chunks hits []) as [out|e] eqn:Hout;
    [|intros [= <-]; by left].
  intros [= <-]. right. by exists index, chunks, v, hits.
Qed.

(** X8: a search never returns more than [k] results, nor more results
    than there are stored chunks. *)
Theorem search_similar_at_most_k (fs : Storage) (repo_id query : string) (k : Z) :
  exists results,
    search_similar embed_query fs repo_id query k = Returned results
    /\ len results <= Z.max 0 k
    /\ forall chunks, fs !! chunks_path repo_id = Some (ChunksPickle chunks) ->
                      len results <= len chunks.
Proof.
  destruct (search_similar_returns embed_query fs repo_id query k) as [results Hr].
  exists results. split; [exact Hr|].
  destruct (search_similar_inv fs repo_id query k results Hr)
    as [->|(index & chunks & v & hits & Hi & Hc & Hq & Hs & Hout)].
  - unfold len. cbn [length]. split; [lia|]. intros. lia.
  - apply index_search_length in Hs. apply collect_results_length in Hout.
    unfold len in *. cbn [length] in Hout. split; [lia|].
    intros chunks' Hc'. rewrite Hc in Hc'. injection Hc' as <-. lia.
Qed.

(** X9: every chunk a search returns is one of the chunks of the
    repository's chunk file. *)
Theorem search_similar_returns_stored_chunks (fs : Storage) (repo_id query : string) (k : Z) :
  exists results,
    search_similar embed_query fs repo_id query k = Returned results
    /\ forall chunks, fs !! chunks_path repo_id = Some (ChunksPickle chunks) ->
                      Forall (fun r : LineNumberChunk * distance => In r.1 chunks) results.
Proof.
  destruct (search_similar_returns embed_query fs repo_id query k) as [results Hr].
  exists results. split; [exact Hr|]. intros chunks' Hc'.
  destruct (search_similar_inv fs repo_id query k results Hr)
    as [->|(index & chunks & v & hits & Hi & Hc & Hq & Hs & Hout)]; [constructor|].
  rewrite Hc in Hc'. injection Hc' as <-.
  apply collect_results_provenance in Hout.
  eapply Forall_impl; [exact Hout|].
  intros r [[]|(idx & _ & _ & Hget)]. by apply py_getitem_In in Hget.
Qed.

(** X10: the results of a search come by ascending distance. *)
Theorem search_similar_ascending (fs : Storage) (repo_id query : string) (k : Z) :
  exists results,
    search_similar embed_query fs repo_id query k = Returned results
    /\ StronglySorted dist_le (map snd results).
Proof.
  destruct (search_similar_returns embed_query fs repo_id query k) as [results Hr].
  exists results. split; [exact Hr|]. by eapply search_similar_sorted.
Qed.

(** X11: position alignment.  A result with a proper distance is the
    chunk at some position [i] of the chunk file together with the squared
    L2 distance of the query embedding to row [i] of the index file. *)
Theorem search_similar_position_aligned
    (fs : Storage) (repo_id query : string) (k : Z)
    (index : IndexFlatL2) (chunks : list LineNumberChunk) (v : vec) :
  fs !! index_path repo_id = Some (FaissFile index) ->
  fs !! chunks_path repo_id = Some (ChunksPickle chunks) ->
  embed_query query = Returned v ->
  exists results,
    search_similar embed_query fs repo_id query k = Returned results
    /\ Forall (fun r : LineNumberChunk * distance =>
                 forall dd, r.2 = Dist dd ->
                   exists i row, chunks !! i = Some r.1
                                 /\ index_xb index !! i = Some row
                                 /\ dd = l2 v row) results.
Proof.
  intros Hi' Hc' Hq'.
  destruct (search_similar_returns embed_query fs repo_id query k) as [results Hr].
  exists results. split; [exact Hr|].
  destruct (search_similar_inv fs repo_id query k results Hr)
    as [->|(index0 & chunks0 & v0 & hits & Hi & Hc & Hq & Hs & Hout)]; [constructor|].
  rewrite Hi' in Hi. injection Hi as <-. rewrite Hc' in Hc. injection Hc as <-.
  rewrite Hq' in Hq. injection Hq as <-.
  apply index_search_rows in Hs. apply collect_results_provenance in Hout.
  rewrite Forall_forall in Hs.
  eapply Forall_impl; [exact Hout|].
  intros [c dist] [[]|(idx & Hin & _ & Hget)] dd Hdd. cbn [fst snd] in *. subst dist.
  apply list_elem_of_In, Hs in Hin. unfold hit_of_row in Hin. cbn [fst snd] in Hin.
  destruct Hin as [Hidx (row & Hrow & ->)].
  exists (Z.to_nat idx), row. split; [|by split].
  by apply py_getitem_nonnegative.
Qed.

End SearchResults.

(** A search of the sample index. *)
Lemma search_similar_position_aligned_witness :
  exists results,
    search_similar steady_query indexed_storage "demo" "how are files parsed" 2
      = Returned results
    /\ Forall (fun r : LineNumberChunk * distance =>
                 forall dd, r.2 = Dist dd ->
                   exists i row, three_chunks !! i = Some r.1
                                 /\ index_xb demo_index !! i = Some row
                                 /\ dd = l2 (length_embedding "how are files parsed") row)
         results.
Proof.
  apply (search_similar_position_aligned steady_query indexed_storage "demo"
           "how are files parsed" 2 demo_index three_chunks
           (length_embedding "how are files parsed")).
  - vm_compute. reflexivity.
  - vm_compute. reflexivity.
  - reflexivity.
Defined.

(** * Further properties of the retrieval and of [/ask] *)

Lemma collect_context_length ids k results context :
  len context < Z.max 1 k ->
  len (collect_context ids k results context) <= Z.max 1 k.
Proof.
  revert context.
  induction results as [|[chunk score] rest IH]; intros context Hlen; cbn [collect_context].
  - lia.
  - case_bool_decide; [by apply IH|].
    destruct (len (context ++ [chunk]) >=? k) eqn:Hk.
    + unfold len in *. rewrite length_app. cbn [length]. lia.
    + rewrite Z.geb_leb in Hk. apply Z.leb_gt in Hk. apply IH. lia.
Qed.

Section RetrievalMore.

Variable embed_query : string -> outcome vec.
Variable get_repo_id : string -> outcome string.
Variable llm_invoke : string -> list (LineNumberChunk * distance) -> outcome string.

(** X12: a selection-based retrieval always returns; its exact list is the
    list of overlapping chunks, and its context list holds at most
    [additional_context_k] chunks, or one chunk when that bound is below
    one. *)
Theorem search_by_selection_bounded
    (db : ChunkDB) (fs : Storage) (repo_id path : string) (start_l end_l k : Z) :
  exists result,
    search_by_selection embed_query db fs repo_id path start_l end_l k = Returned result
    /\ selected_chunks result = get_chunks_by_lines db repo_id path start_l end_l
    /\ len (context_chunks result) <= Z.max 1 k.
Proof.
  unfold search_by_selection.
  destruct (get_chunks_by_lines db repo_id path start_l end_l) as [|first rest].
  - cbn [obind]. eexists. split; [reflexivity|]. split; [reflexivity|].
    cbn [context_chunks]. unfold len. cbn [length]. lia.
  - destruct (has_index fs repo_id).
    + destruct (search_similar_returns embed_query fs repo_id (content first)
                  (k + len (first :: rest))) as [results ->].
      cbn [obind]. eexists. split; [reflexivity|]. split; [reflexivity|].
      cbn [context_chunks]. apply collect_context_length. unfold len. cbn [length]. lia.
    + cbn [obind]. eexists. split; [reflexivity|]. split; [reflexivity|].
      cbn [context_chunks]. unfold len. cbn [length]. lia.
Qed.

(** X15: an answer of [/ask] (status 200 with an answer body) repeats the
    question and never reports more than five chunks used. *)
Theorem ask_question_at_most_five_chunks
    (fs : Storage) (repo_url question asked answer : string) (used : nat) (code : Z) :
  ask_question embed_query get_repo_id llm_invoke fs repo_url question
    = {| body := AnswerBody asked answer used; status := code |} ->
  code = 200 /\ asked = question /\ (used <= 5)%nat.
Proof.
  unfold ask_question.
  destruct (bool_decide (repo_url = "") || bool_decide (question = "")); [discriminate|].
  destruct (get_repo_id repo_url) as [repo_id|e]; cbn [obind]; [|discriminate].
  destruct (has_index fs repo_id); cbn [negb]; [|discriminate].
  destruct (search_similar embed_query fs repo_id question 5) as [results|e] eqn:Hr;
    cbn [obind]; [|discriminate].
  destruct results as [|r results].
  - intros [= <- <- <- <-]. repeat split. lia.
  - destruct (llm_invoke question (r :: results)) as [a|e]; cbn [obind]; [|discriminate].
    intros [= <- <- <- <-]. repeat split.
    destruct (search_similar_inv embed_query fs repo_id question 5 _ Hr)
      as [Hnil|(index & chunks & v & hits & _ & _ & _ & Hs & Hout)]; [discriminate Hnil|].
    apply index_search_length in Hs. apply collect_results_length in Hout.
    cbn [length] in *. lia.
Qed.

(** X16: an exception of [get_repo_id], or of the chat model once a
    search of an indexed repository found something, becomes a response with
    status 500 whose message carries the text of the exception. *)
Theorem ask_question_exception_is_500
    (fs : Storage) (repo_url question : string) (e : exn) :
  repo_url <> "" ->
  question <> "" ->
  get_repo_id repo_url = Raised e
  \/ (exists repo_id results,
        get_repo_id repo_url = Returned repo_id
        /\ has_index fs repo_id = true
        /\ search_similar embed_query fs repo_id question 5 = Returned results
        /\ results <> []
        /\ llm_invoke question results = Raised e) ->
  ask_question embed_query get_repo_id llm_invoke fs repo_url question
  = {| body := ErrorBody ("Q&A failed: " +:+ exn_msg e); status := 500 |}.
Proof.
  intros Hurl Hq H. unfold ask_question.
  rewrite (bool_decide_eq_false_2 _ Hurl), (bool_decide_eq_false_2 _ Hq). cbn [orb].
  destruct H as [->|(repo_id & results & -> & Hidx & Hs & Hne & Hllm)]; [reflexivity|].
  cbn [obind]. rewrite Hidx, Hs. cbn [negb obind].
  destruct results as [|r results]; [contradiction|].
  rewrite Hllm. reflexivity.
Qed.

End RetrievalMore.

(** The selection of lines 5 to 6 of the sample file with a bound of 3. *)
Lemma search_by_selection_positive_k_witness :
  search_by_selection steady_query segmented_db indexed_storage "demo" "f.py" 5 6 3
  = Returned {| selected_chunks := [chunk_b];
                context_chunks :=
                  take (Z.to_nat 3)
                    (filter (fun c => chunk_id c ∉@{gset string}
                                        list_to_set (map chunk_id [chunk_b]))
                       (map fst [(chunk_a, Dist 676); (chunk_b, Dist 841);
                                 (chunk_c, Dist 1156)])) |}.
Proof.
  apply (search_by_selection_positive_k steady_query segmented_db indexed_storage
           "demo" "f.py" 5 6 3 chunk_b []).
  - vm_compute. reflexivity.
  - vm_compute. reflexivity.
  - lia.
  - vm_compute. reflexivity.
Defined.

(** A question on the indexed sample repository while the model is down. *)
Lemma ask_question_model_failure_witness :
  ask_question failing_query demo_repo_id canned_llm indexed_storage
    "https://github.com/octo/demo" "how are files parsed"
  = empty_result_response "how are files parsed".
Proof.
  apply (ask_question_model_failure failing_query demo_repo_id canned_llm indexed_storage
           "https://github.com/octo/demo" "how are files parsed" "demo" quota_exceeded).
  - discriminate.
  - discriminate.
  - reflexivity.
  - vm_compute. reflexivity.
  - reflexivity.
Defined.

Lemma ask_question_at_most_five_chunks_witness :
  200 = 200 /\ "how are files parsed" = "how are files parsed" /\ (3 <= 5)%nat.
Proof.
  apply (ask_question_at_most_five_chunks steady_query demo_repo_id canned_llm indexed_storage
           "https://github.com/octo/demo" "how are files parsed" "how are files parsed"
           "It parses files." 3 200).
  vm_compute. reflexivity.
Defined.

Lemma ask_question_exception_is_500_witness :
  ask_question steady_query (fun _ => Raised (ValueError "Invalid GitHub URL")) canned_llm
    indexed_storage "not a url" "how are files parsed"
  = {| body := ErrorBody ("Q&A failed: " +:+ "Invalid GitHub URL"); status := 500 |}.
Proof.
  apply (ask_question_exception_is_500 steady_query
           (fun _ => Raised (ValueError "Invalid GitHub URL")) canned_llm
           indexed_storage "not a url" "how are files parsed" (ValueError "Invalid GitHub URL")).
  - discriminate.
  - discriminate.
  - left. reflexivity.
Defined.

(** * The [/embed] route *)

Lemma with_artifacts_has_index fs repo_id index chunks :
  has_index (with_artifacts fs repo_id index chunks) repo_id = true.
Proof.
  unfold has_index, path_exists, with_artifacts.
  rewrite (lookup_insert_ne _ (info_path repo_id) (index_path repo_id))
    by apply info_path_not_index_path.
  rewrite (lookup_insert_ne _ (chunks_path repo_id) (index_path repo_id))
    by (intros E; symmetry in E; by apply index_path_not_chunks_path in E).
  rewrite lookup_insert_eq.
  rewrite (lookup_insert_ne _ (info_path repo_id) (chunks_path repo_id))
    by apply info_path_not_chunks_path.
  rewrite lookup_insert_eq.
  apply andb_true_iff. split; apply bool_decide_eq_true; eauto.
Qed.

Lemma with_artifacts_stats fs repo_id index chunks :
  get_index_stats (with_artifacts fs repo_id index chunks) repo_id
  = Returned (Some {| total_chunks := length chunks; dimension := index_d index;
                      info_repo_id := repo_id |}).
Proof.
  unfold get_index_stats. rewrite with_artifacts_has_index. cbn [negb].
  unfold path_exists, pickle_load_info, with_artifacts. rewrite lookup_insert_eq.
  rewrite bool_decide_eq_true_2 by eauto. reflexivity.
Qed.

Section EmbedRouteFacts.

Variable embed_documents : nat -> list string -> outcome (list vec).
Variable get_repo_id : string -> outcome string.

Lemma create_index_raised_batch fs repo_id chunks i e :
  In i (batch_starts (length chunks)) ->
  embed_documents (i / batch_size)
    (py_slice (map enriched_text chunks) i (i + batch_size)) = Raised e ->
  create_index embed_documents fs repo_id chunks = (false, fs).
Proof.
  intros Hin Hfail.
  destruct (create_index_shape embed_documents repo_id chunks)
    as [Hc|(out & d & _ & Hb & _)]; [apply Hc|].
  destruct (embed_batches_raises embed_documents (map enriched_text chunks)
              (batch_starts (length chunks)) [] i e Hin Hfail) as [e' He'].
  rewrite He' in Hb. discriminate Hb.
Qed.

(** X17: when the embedding of a batch raises during [/embed], the route
    answers 500 "Failed to create embeddings" and the storage directory is
    what it was. *)
Theorem embed_repo_batch_failure
    (db : ChunkDB) (fs : Storage) (repo_url repo_id : string)
    (chunks : list LineNumberChunk) (i : nat) (e : exn) :
  repo_url <> "" ->
  get_repo_id repo_url = Returned repo_id ->
  db !! repo_id = Some chunks ->
  In i (batch_starts (length chunks)) ->
  embed_documents (i / batch_size)
    (py_slice (map enriched_text chunks) i (i + batch_size)) = Raised e ->
  embed_repo embed_documents get_repo_id db fs repo_url
  = ({| embed_body := EmbedError "Failed to create embeddings"; embed_status := 500 |}, fs).
Proof.
  intros Hurl Hid Hdb Hin Hfail.
  unfold embed_repo, embed_repo_body, has_chunks, load_chunks.
  rewrite (bool_decide_eq_false_2 _ Hurl), Hid, Hdb.
  rewrite bool_decide_eq_true_2 by eauto. cbn [negb].
  destruct chunks as [|c chunks]; [destruct Hin|].
  rewrite (create_index_raised_batch fs repo_id (c :: chunks) i e Hin Hfail).
  reflexivity.
Qed.

(** What a response with status 200 of [/embed] says about the call. *)
Lemma embed_repo_200_inv db fs repo_url response fs' :
  embed_repo embed_documents get_repo_id db fs repo_url = (response, fs') ->
  embed_status response = 200 ->
  exists repo_id chunks index,
    repo_url <> ""
    /\ get_repo_id repo_url = Returned repo_id
    /\ db !! repo_id = Some chunks
    /\ response = {| embed_body := EmbedDone repo_id (length chunks) true;
                     embed_status := 200 |}
    /\ fs' = with_artifacts fs repo_id index chunks.
Proof.
  unfold embed_repo, embed_repo_body, has_chunks, load_chunks.
  case_bool_decide as Hurl; [intros [= <- <-]; discriminate|].
  destruct (get_repo_id repo_url) as [repo_id|e]; [|intros [= <- <-]; discriminate].
  destruct (db !! repo_id) as [chunks|] eqn:Hdb.
  - rewrite bool_decide_eq_true_2 by eauto. cbn [negb].
    destruct chunks as [|c chunks]; [intros [= <- <-]; discriminate|].
    destruct (create_index_shape embed_documents repo_id (c :: chunks))
      as [Hc|(out & d & _ & _ & _ & _ & _ & Hc)]; rewrite (Hc fs); cbn [negb].
    + intros [= <- <-]. discriminate.
    + intros [= <- <-] _.
      exists repo_id, (c :: chunks), {| index_d := d; index_xb := out |}. by repeat split.
  - rewrite bool_decide_eq_false_2 by (by intros [? ?]). cbn [negb].
    intros [= <- <-]. discriminate.
Qed.

(** X18: after [/embed] answered 200 for a URL, [/ask] for the same URL
    does not answer "Repository not indexed". *)
Theorem embed_repo_then_ask
    (embed_query : string -> outcome vec)
    (llm_invoke : string -> list (LineNumberChunk * distance) -> outcome string)
    (db : ChunkDB) (fs fs' : Storage) (repo_url question : string)
    (response : EmbedResponse) :
  embed_repo embed_documents get_repo_id db fs repo_url = (response, fs') ->
  embed_status response = 200 ->
  ask_question embed_query get_repo_id llm_invoke fs' repo_url question
  <> not_indexed_response.
Proof.
  intros H Hok.
  destruct (embed_repo_200_inv db fs repo_url response fs' H Hok)
    as (repo_id & chunks & index & Hurl & Hid & _ & _ & ->).
  unfold ask_question. rewrite (bool_decide_eq_false_2 _ Hurl). cbn [orb].
  case_bool_decide; [discriminate|].
  rewrite Hid. cbn [obind]. rewrite with_artifacts_has_index. cbn [negb].
  destruct (search_similar_returns embed_query (with_artifacts fs repo_id index chunks)
              repo_id question 5) as [results ->].
  cbn [obind]. destruct results as [|r results]; [discriminate|].
  destruct (llm_invoke question (r :: results)); discriminate.
Qed.

(** X19: the count that [/embed] reports with status 200 is the number of
    chunks stored for the repository, and it is the count that
    [get_index_stats] reads back from the new index. *)
Theorem embed_repo_reports_stored_count
    (db : ChunkDB) (fs fs' : Storage) (repo_url repo_id : string) (n : nat) (created : bool) :
  embed_repo embed_documents get_repo_id db fs repo_url
    = ({| embed_body := EmbedDone repo_id n created; embed_status := 200 |}, fs') ->
  created = true
  /\ get_repo_id repo_url = Returned repo_id
  /\ (exists chunks, db !! repo_id = Some chunks /\ length chunks = n)
  /\ exists d, get_index_stats fs' repo_id
               = Returned (Some {| total_chunks := n; dimension := d;
                                   info_repo_id := repo_id |}).
Proof.
  intros H.
  destruct (embed_repo_200_inv db fs repo_url _ fs' H eq_refl)
    as (repo_id' & chunks & index & Hurl & Hid & Hdb & Hresp & ->).
  injection Hresp as -> -> ->.
  split; [reflexivity|]. split; [exact Hid|]. split; [by exists chunks|].
  exists (index_d index). apply with_artifacts_stats.
Qed.

End EmbedRouteFacts.

(** [/embed] for the sample repository with 150 chunks stored, the second
    batch failing. *)
Lemma embed_repo_batch_failure_witness :
  embed_repo failing_second_request demo_repo_id {[ "demo" := many_chunks ]} indexed_storage
    "https://github.com/octo/demo"
  = ({| embed_body := EmbedError "Failed to create embeddings"; embed_status := 500 |},
     indexed_storage).
Proof.
  apply (embed_repo_batch_failure failing_second_request demo_repo_id
           {[ "demo" := many_chunks ]} indexed_storage "https://github.com/octo/demo" "demo"
           many_chunks 100%nat quota_exceeded).
  - discriminate.
  - reflexivity.
  - vm_compute. reflexivity.
  - vm_compute. tauto.
  - vm_compute. reflexivity.
Defined.

(** [/embed] and then [/ask] for the sample repository. *)
Lemma embed_repo_then_ask_witness :
  ask_question steady_query demo_repo_id canned_llm indexed_storage
    "https://github.com/octo/demo" "how are files parsed"
  <> not_indexed_response.
Proof.
  apply (embed_repo_then_ask steady_documents demo_repo_id steady_query canned_llm
           segmented_db ∅ indexed_storage "https://github.com/octo/demo"
           "how are files parsed"
           {| embed_body := EmbedDone "demo" 3 true; embed_status := 200 |}).
  - vm_compute. reflexivity.
  - reflexivity.
Defined.

Lemma embed_repo_reports_stored_count_witness :
  true = true
  /\ demo_repo_id "https://github.com/octo/demo" = Returned "demo"
  /\ (exists chunks, segmented_db !! "demo" = Some chunks /\ length chunks = 3%nat)
  /\ exists d, get_index_stats indexed_storage "demo"
               = Returned (Some {| total_chunks := 3; dimension := d;
                                   info_repo_id := "demo" |}).
Proof.
  apply (embed_repo_reports_stored_count steady_documents demo_repo_id segmented_db ∅
           indexed_storage "https://github.com/octo/demo" "demo" 3 true).
  vm_compute. reflexivity.
Defined.

(** * The [/explain] route *)

Section ExplainRouteFacts.

Variable embed_query : string -> outcome vec.
Variable get_repo_id : string -> outcome string.
Variable llm : string -> outcome string.

Lemma search_by_selection_inv db fs repo_id path start_l end_l k result :
  search_by_selection embed_query db fs repo_id path start_l end_l k = Returned result ->
  selected_chunks result = get_chunks_by_lines db repo_id path start_l end_l
  /\ len (context_chunks result) <= Z.max 1 k.
Proof.
  unfold search_by_selection.
  destruct (get_chunks_by_lines db repo_id path start_l end_l) as [|first rest].
  - cbn [obind]. intros [= <-]. split; [reflexivity|]. unfold len. cbn. lia.
  - destruct (has_index fs repo_id).
    + destruct (search_similar_returns embed_query fs repo_id (content first)
                  (k + len (first :: rest))) as [results ->].
      cbn [obind]. intros [= <-]. split; [reflexivity|].
      cbn [context_chunks]. apply collect_context_length. unfold len. cbn [length]. lia.
    + cbn [obind]. intros [= <-]. split; [reflexivity|]. unfold len. cbn. lia.
Qed.

(** X20: for a repository without index, [/explain] still answers: the
    prompt is built from the overlapping chunks alone and the response counts
    exactly them. *)
Theorem explain_selection_without_index
    (db : ChunkDB) (fs : Storage) (repo_url repo_id path : string) (start_l end_l : Z)
    (selected_code explanation : string) :
  get_repo_id repo_url = Returned repo_id ->
  has_index fs repo_id = false ->
  llm (explain_prompt path start_l end_l selected_code
         (context_text_of
            (map selected_part (get_chunks_by_lines db repo_id path start_l end_l))
            selected_code)) = Returned explanation ->
  explain_selection embed_query get_repo_id llm db fs repo_url path start_l end_l selected_code
  = {| explain_body :=
         Explanation path (string_of_Z start_l +:+ "-" +:+ string_of_Z end_l) explanation
           (length (get_chunks_by_lines db repo_id path start_l end_l));
       explain_status := 200 |}.
Proof.
  intros Hid Hidx Hllm. unfold explain_selection, search_by_selection.
  rewrite Hid. cbn [obind]. rewrite Hidx.
  destruct (get_chunks_by_lines db repo_id path start_l end_l) as [|first rest];
    cbn [obind selected_chunks context_chunks];
    change (map related_part []) with (@nil string);
    rewrite app_nil_r, Hllm; cbn [obind length]; by rewrite Nat.add_0_r.
Qed.

(** X21: when no stored chunk overlaps the selection (for instance the
    repository was never chunked), the chat model is asked with the selected
    code itself in the place of the context, and the response counts zero
    chunks. *)
Theorem explain_selection_falls_back_to_code
    (db : ChunkDB) (fs : Storage) (repo_url repo_id path : string) (start_l end_l : Z)
    (selected_code explanation : string) :
  get_repo_id repo_url = Returned repo_id ->
  get_chunks_by_lines db repo_id path start_l end_l = [] ->
  llm (explain_prompt path start_l end_l selected_code selected_code) = Returned explanation ->
  explain_selection embed_query get_repo_id llm db fs repo_url path start_l end_l selected_code
  = {| explain_body :=
         Explanation path (string_of_Z start_l +:+ "-" +:+ string_of_Z end_l) explanation 0;
       explain_status := 200 |}.
Proof.
  intros Hid Hnone Hllm. unfold explain_selection, search_by_selection.
  rewrite Hid. cbn [obind]. rewrite Hnone.
  cbn [obind selected_chunks context_chunks map app context_text_of].
  rewrite Hllm. reflexivity.
Qed.

(** X22: an explanation (status 200) reports at least the overlapping
    chunks and at most three chunks more. *)
Theorem explain_selection_chunks_used
    (db : ChunkDB) (fs : Storage) (repo_url path : string) (start_l end_l : Z)
    (selected_code shown range explanation : string) (used : nat) (code : Z) :
  explain_selection embed_query get_repo_id llm db fs repo_url path start_l end_l selected_code
    = {| explain_body := Explanation shown range explanation used; explain_status := code |} ->
  code = 200 /\ shown = path
  /\ exists repo_id,
       get_repo_id repo_url = Returned repo_id
       /\ (length (get_chunks_by_lines db repo_id path start_l end_l) <= used
           <= length (get_chunks_by_lines db repo_id path start_l end_l) + 3)%nat.
Proof.
  unfold explain_selection.
  destruct (get_repo_id repo_url) as [repo_id|e]; cbn [obind]; [|discriminate].
  destruct (search_by_selection embed_query db fs repo_id path start_l end_l 3)
    as [result|e] eqn:Hsel; cbn [obind]; [|discriminate].
  destruct (llm _) as [ex|e]; cbn [obind]; [|discriminate].
  intros [= <- <- <- <- <-]. split; [reflexivity|]. split; [reflexivity|].
  exists repo_id. split; [reflexivity|].
  destruct (search_by_selection_inv db fs repo_id path start_l end_l 3 result Hsel)
    as [-> Hctx].
  unfold len in Hctx. lia.
Qed.

(** X23: an exception of [get_repo_id], or of the chat model on the prompt
    that the route builds from the retrieved chunks, becomes a response with
    status 500 whose message carries the text of the exception. *)
Theorem explain_selection_exception_is_500
    (db : ChunkDB) (fs : Storage) (repo_url path : string) (start_l end_l : Z)
    (selected_code : string) (e : exn) :
  get_repo_id repo_url = Raised e
  \/ (exists repo_id context_data,
        get_repo_id repo_url = Returned repo_id
        /\ search_by_selection embed_query db fs repo_id path start_l end_l 3
           = Returned context_data
        /\ llm (explain_prompt path start_l end_l selected_code
                  (context_text_of
                     (map selected_part (selected_chunks context_data)
                      ++ map related_part (context_chunks context_data))
                     selected_code)) = Raised e) ->
  explain_selection embed_query get_repo_id llm db fs repo_url path start_l end_l selected_code
  = {| explain_body := ExplainError ("Explanation failed: " +:+ exn_msg e);
       explain_status := 500 |}.
Proof.
  unfold explain_selection.
  intros [->|(repo_id & context_data & -> & Hsel & Hllm)]; [reflexivity|].
  cbn [obind]. rewrite Hsel. cbn [obind]. rewrite Hllm. reflexivity.
Qed.

End ExplainRouteFacts.

(** An explanation for lines 5 to 6 of the sample file before the
    repository is indexed. *)
Lemma explain_selection_without_index_witness :
  explain_selection steady_query demo_repo_id canned_explainer segmented_db ∅
    "https://github.com/octo/demo" "f.py" 5 6 "x + y"
  = {| explain_body :=
         Explanation "f.py" (string_of_Z 5 +:+ "-" +:+ string_of_Z 6) "It adds two numbers."
           (length (get_chunks_by_lines segmented_db "demo" "f.py" 5 6));
       explain_status := 200 |}.
Proof.
  apply (explain_selection_without_index steady_query demo_repo_id canned_explainer
           segmented_db ∅ "https://github.com/octo/demo" "demo" "f.py" 5 6 "x + y"
           "It adds two numbers.").
  - reflexivity.
  - vm_compute. reflexivity.
  - reflexivity.
Defined.

(** An explanation for a repository that was never chunked. *)
Lemma explain_selection_falls_back_to_code_witness :
  explain_selection steady_query demo_repo_id canned_explainer ∅ ∅
    "https://github.com/octo/demo" "f.py" 5 6 "x + y"
  = {| explain_body :=
         Explanation "f.py" (string_of_Z 5 +:+ "-" +:+ string_of_Z 6) "It adds two numbers." 0;
       explain_status := 200 |}.
Proof.
  apply (explain_selection_falls_back_to_code steady_query demo_repo_id canned_explainer
           ∅ ∅ "https://github.com/octo/demo" "demo" "f.py" 5 6 "x + y"
           "It adds two numbers.").
  - reflexivity.
  - vm_compute. reflexivity.
  - reflexivity.
Defined.

(** An explanation over the indexed sample repository: one overlapping
    chunk and two related ones. *)
Lemma explain_selection_chunks_used_witness :
  200 = 200 /\ "f.py" = "f.py"
  /\ exists repo_id,
       demo_repo_id "https://github.com/octo/demo" = Returned repo_id
       /\ (length (get_chunks_by_lines segmented_db repo_id "f.py" 5 6) <= 3
           <= length (get_chunks_by_lines segmented_db repo_id "f.py" 5 6) + 3)%nat.
Proof.
  apply (explain_selection_chunks_used steady_query demo_repo_id canned_explainer
           segmented_db indexed_storage "https://github.com/octo/demo" "f.py" 5 6 "x + y"
           "f.py" "5-6" "It adds two numbers." 3 200).
  vm_compute. reflexivity.
Defined.

Lemma explain_selection_exception_is_500_witness :
  explain_selection steady_query demo_repo_id failing_llm segmented_db indexed_storage
    "https://github.com/octo/demo" "f.py" 5 6 "x + y"
  = {| explain_body := ExplainError ("Explanation failed: " +:+ exn_msg quota_exceeded);
       explain_status := 500 |}.
Proof.
  apply (explain_selection_exception_is_500 steady_query demo_repo_id failing_llm
           segmented_db indexed_storage "https://github.com/octo/demo" "f.py" 5 6 "x + y"
           quota_exceeded).
  right. exists "demo", {| selected_chunks := [chunk_b]; context_chunks := [chunk_a; chunk_c] |}.
  split; [reflexivity|]. split; [vm_compute; reflexivity|reflexivity].
Defined.

(** * The path of [/file-content] *)

Lemma replace_dotdot_head s c out :
  replace_dotdot s = String c out -> is_dot c = true ->
  exists rest, s = String c rest \/ (exists c0, s = String c0 rest /\ is_dot c0 = true).
Proof.
  destruct s as [|c0 [|c1 rest1]]; cbn [replace_dotdot].
  - discriminate.
  - intros [= <- <-] _. exists EmptyString. by left.
  - destruct (is_dot c0 && is_dot c1) eqn:Hdots.
    + intros _ _. exists (String c1 rest1). right. exists c0. split; [reflexivity|].
      by apply andb_true_iff in Hdots as [? _].
    + intros [= <- <-] _. exists (String c1 rest1). by left.
Qed.

Lemma replace_dotdot_two c0 c1 rest :
  replace_dotdot (String c0 (String c1 rest))
  = if is_dot c0 && is_dot c1 then replace_dotdot rest
    else String c0 (replace_dotdot (String c1 rest)).
Proof. reflexivity. Qed.

Lemma has_dotdot_two c0 c1 rest :
  has_dotdot (String c0 (String c1 rest))
  = (is_dot c0 && is_dot c1) || has_dotdot (String c1 rest).
Proof. reflexivity. Qed.

Lemma replace_dotdot_clean_upto n s :
  (String.length s <= n)%nat -> has_dotdot (replace_dotdot s) = false.
Proof.
  revert s. induction n as [|n IH]; intros s Hlen.
  - destruct s; [reflexivity|cbn in Hlen; lia].
  - destruct s as [|c0 [|c1 rest1]]; [reflexivity|reflexivity|].
    cbn [String.length] in Hlen. rewrite replace_dotdot_two.
    destruct (is_dot c0 && is_dot c1) eqn:Hdots; [apply IH; lia|].
    assert (Hrest : has_dotdot (replace_dotdot (String c1 rest1)) = false)
      by (apply IH; cbn [String.length]; lia).
    destruct (replace_dotdot (String c1 rest1)) as [|r0 out] eqn:Hout; [reflexivity|].
    rewrite has_dotdot_two, Hrest, orb_false_r.
    destruct (is_dot c0) eqn:Hc0; [|reflexivity]. cbn [andb] in *.
    destruct (is_dot r0) eqn:Hr0; [|reflexivity].
    destruct (replace_dotdot_head _ _ _ Hout Hr0) as [rest [H|(c & H & Hc)]].
    + injection H as <- _. congruence.
    + injection H as <- _. congruence.
Qed.

Lemma replace_dotdot_clean s : has_dotdot (replace_dotdot s) = false.
Proof. by apply (replace_dotdot_clean_upto (String.length s)). Qed.

Lemma has_dotdot_tail c s : has_dotdot (String c s) = false -> has_dotdot s = false.
Proof.
  destruct s as [|c' s']; [reflexivity|].
  rewrite has_dotdot_two. intros H. by apply orb_false_iff in H as [_ H].
Qed.

Lemma lstrip_slash_clean s : has_dotdot s = false -> has_dotdot (lstrip_slash s) = false.
Proof.
  induction s as [|c s IH]; [reflexivity|]. intros H. cbn [lstrip_slash].
  destruct (is_slash c); [|exact H]. apply IH. by eapply has_dotdot_tail.
Qed.

Lemma lstrip_slash_no_slash s : starts_with_slash (lstrip_slash s) = false.
Proof.
  induction s as [|c s IH]; [reflexivity|]. cbn [lstrip_slash].
  destruct (is_slash c) eqn:Hc; [exact IH|]. cbn [starts_with_slash]. exact Hc.
Qed.

Lemma replace_dotdot_fixed s : has_dotdot s = false -> replace_dotdot s = s.
Proof.
  induction s as [|c0 s IH]; [reflexivity|]. intros H.
  destruct s as [|c1 rest1]; [reflexivity|].
  pose proof (has_dotdot_tail _ _ H) as Htail.
  rewrite has_dotdot_two in H. apply orb_false_iff in H as [Hdots _].
  rewrite replace_dotdot_two, Hdots, (IH Htail). reflexivity.
Qed.

Lemma lstrip_slash_fixed s : starts_with_slash s = false -> lstrip_slash s = s.
Proof. destruct s as [|c s]; [reflexivity|]. cbn. by intros ->. Qed.

(** X24: the cleaned path of [/file-content] holds no two dots next to
    each other and does not begin with a slash; cleaning it again changes
    nothing. *)
Theorem clean_path_safe (path : string) :
  has_dotdot (clean_path path) = false
  /\ starts_with_slash (clean_path path) = false
  /\ clean_path (clean_path path) = clean_path path.
Proof.
  assert (H1 : has_dotdot (clean_path path) = false)
    by (apply lstrip_slash_clean, replace_dotdot_clean).
  assert (H2 : starts_with_slash (clean_path path) = false) by apply lstrip_slash_no_slash.
  split; [exact H1|]. split; [exact H2|].
  unfold clean_path at 1. rewrite (replace_dotdot_fixed _ H1). by apply lstrip_slash_fixed.
Qed.

(** X25: a path without two dots next to each other and without a leading
    slash is passed on unchanged. *)
Theorem clean_path_keeps_plain_paths (path : string) :
  has_dotdot path = false ->
  starts_with_slash path = false ->
  clean_path path = path.
Proof.
  intros H1 H2. unfold clean_path. rewrite (replace_dotdot_fixed _ H1).
  by apply lstrip_slash_fixed.
Qed.

Lemma clean_path_keeps_plain_paths_witness : clean_path "src/tools/embedder.py" = "src/tools/embedder.py".
Proof.
  apply (clean_path_keeps_plain_paths "src/tools/embedder.py"); reflexivity.
Defined.

(** Paths that try to leave the repository directory. *)
Example clean_path_samples :
  clean_path "../../etc/passwd" = "etc/passwd"
  /\ clean_path "/etc/passwd" = "etc/passwd"
  /\ clean_path "....//a/.../b" = "a/./b".
Proof. repeat split. Qed.

(** * A build followed by a search *)

Section BuildThenSearch.

Variable embed_documents : nat -> list string -> outcome (list vec).
Variable embed_query : string -> outcome vec.

Lemma embed_batches_pointwise (embed : string -> vec) texts :
  (forall n batch, embed_documents n batch = Returned (map embed batch)) ->
  embed_batches embed_documents texts (batch_starts (length texts)) []
  = Returned (map embed texts).
Proof.
  intros Hpoint.
  rewrite (embed_batches_answers embed_documents _ _ [] (map (map embed) (batches_of texts))).
  - cbn [app]. by rewrite <- concat_map, batches_of_concat.
  - unfold batches_of. rewrite map_map.
    generalize (batch_starts (length texts)) as starts.
    induction starts as [|i starts IH]; cbn [map]; constructor; [apply Hpoint|exact IH].
Qed.

(** X4: with a model that embeds each text on its own, a build that
    answers [True] has written the chunk list, the header, and an index whose
    row [i] is the vector of the model for the enriched text of chunk [i]
    (vector components as this file has them, exact and not rounded). *)
Theorem create_index_pointwise
    (fs fs' : Storage) (repo_id : string) (chunks : list LineNumberChunk)
    (embed : string -> vec) :
  (forall n batch, embed_documents n batch = Returned (map embed batch)) ->
  create_index embed_documents fs repo_id chunks = (true, fs') ->
  exists d,
    d <> 0%nat
    /\ Forall (fun c => length (embed (enriched_text c)) = d) chunks
    /\ fs' = <[info_path repo_id := InfoPickle {| total_chunks := length chunks;
                                                  dimension := d;
                                                  info_repo_id := repo_id |}]>
               (<[chunks_path repo_id := ChunksPickle chunks]>
                  (<[index_path repo_id :=
                       FaissFile {| index_d := d;
                                    index_xb := map embed (map enriched_text chunks) |}]>
                     fs)).
Proof.
  intros Hpoint Hbuild.
  destruct (create_index_shape embed_documents repo_id chunks)
    as [Hc|(out & d & Hne & Hb & Hout & Hd & Hall & Hc)]; rewrite (Hc fs) in Hbuild;
    [discriminate Hbuild|].
  injection Hbuild as <-.
  rewrite <- (length_map enriched_text chunks) in Hb.
  rewrite (embed_batches_pointwise embed _ Hpoint) in Hb. injection Hb as <-.
  exists d. split; [exact Hd|]. split; [|reflexivity].
  rewrite map_map in Hall. by apply Forall_map in Hall.
Qed.

(** X26: build, then search.  With a model that embeds each text on its
    own, after a build that answered [True] a search with a query embedding
    of the same dimension returns exactly [min k n] results, and each result
    is a chunk of the build paired with the squared L2 distance between the
    query embedding and the embedding of that chunk's enriched text. *)
Theorem create_index_then_search
    (fs fs' : Storage) (repo_id query : string) (chunks : list LineNumberChunk)
    (embed : string -> vec) (v : vec) (k : Z) :
  (forall n batch, embed_documents n batch = Returned (map embed batch)) ->
  (forall text, length (embed text) = length v) ->
  create_index embed_documents fs repo_id chunks = (true, fs') ->
  embed_query query = Returned v ->
  0 <= k ->
  exists results,
    search_similar embed_query fs' repo_id query k = Returned results
    /\ len results = Z.min k (len chunks)
    /\ Forall (fun r : LineNumberChunk * distance =>
                 In r.1 chunks /\ r.2 = Dist (l2 v (embed (enriched_text r.1)))) results.
Proof.
  intros Hpoint Hdim Hbuild Hq Hk.
  destruct (create_index_shape embed_documents repo_id chunks)
    as [Hc|(out & d & Hne & Hb & Hout & Hd & Hall & Hc)]; rewrite (Hc fs) in Hbuild;
    [discriminate Hbuild|].
  injection Hbuild as <-.
  rewrite <- (length_map enriched_text chunks) in Hb.
  rewrite (embed_batches_pointwise embed _ Hpoint) in Hb. injection Hb as <-.
  assert (Hdv : d = length v).
  { destruct chunks as [|c chunks]; [contradiction|].
    cbn [map] in Hall. inversion Hall as [|? ? Hx _]. rewrite <- Hx. apply Hdim. }
  subst d. clear Hc Hout Hd Hall.
  set (index := {| index_d := length v;
                   index_xb := map embed (map enriched_text chunks) |}).
  unfold search_similar. rewrite with_artifacts_has_index. cbn [negb].
  unfold search_similar_body, read_index, pickle_load_chunks, with_artifacts.
  rewrite (lookup_insert_ne _ (info_path repo_id) (index_path repo_id))
    by apply info_path_not_index_path.
  rewrite (lookup_insert_ne _ (chunks_path repo_id) (index_path repo_id))
    by (intros E; symmetry in E; by apply index_path_not_chunks_path in E).
  rewrite lookup_insert_eq.
  rewrite (lookup_insert_ne _ (info_path repo_id) (chunks_path repo_id))
    by apply info_path_not_chunks_path.
  rewrite lookup_insert_eq. cbn [obind]. rewrite Hq. cbn [obind].
  assert (Hn : ntotal index = length chunks)
    by (unfold ntotal, index; cbn [index_xb]; by rewrite !length_map).
  destruct (decide (0 < Z.min k (len chunks))) as [Hpos|Hzero].
  - destruct (index_search_within_total index v (Z.min k (len chunks)) eq_refl)
      as [hits [Hs [Hlen Hrange]]]; [rewrite Hn; unfold len in *; lia|].
    rewrite Hs. cbn [obind]. rewrite Hn in Hrange.
    destruct (collect_results_in_range chunks hits [] Hrange) as [results [Hout Hcount]].
    rewrite Hout. cbn [try_except]. exists results. split; [reflexivity|].
    split; [unfold len in *; cbn [length] in Hcount; lia|].
    apply index_search_rows in Hs. apply collect_results_provenance in Hout.
    rewrite Forall_forall in Hs, Hrange.
    eapply Forall_impl; [exact Hout|].
    intros [c dist] [[]|(idx & Hin & _ & Hget)]. cbn [fst snd] in *.
    apply list_elem_of_In in Hin.
    pose proof (Hrange _ Hin) as Hidx. pose proof (Hs _ Hin) as Hrow.
    cbn [snd] in Hidx. unfold hit_of_row in Hrow. cbn [fst snd] in Hrow.
    assert (Hc : chunks !! Z.to_nat idx = Some c) by (apply py_getitem_nonnegative; [lia|done]).
    split; [apply list_elem_of_In; by eapply list_elem_of_lookup_2|].
    destruct dist as [dd|]; [|lia].
    destruct Hrow as [_ (row & Hrow & ->)]. unfold index in Hrow. cbn [index_xb] in Hrow.
    rewrite map_map in Hrow.
    change (map (fun x => embed (enriched_text x)) chunks)
      with ((fun x => embed (enriched_text x)) <$> chunks) in Hrow.
    rewrite list_lookup_fmap, Hc in Hrow. by injection Hrow as <-.
  - exists []. split.
    + unfold index_search. rewrite Nat.eqb_refl. cbn [negb].
      rewrite (proj2 (Z.ltb_ge 0 (Z.min k (len chunks)))) by lia. reflexivity.
    + split; [unfold len in *; cbn [length]; lia|constructor].
Qed.

End BuildThenSearch.

(** The build of the sample repository by the length model. *)
Lemma create_index_pointwise_witness :
  exists d,
    d <> 0%nat
    /\ Forall (fun c => length (length_embedding (enriched_text c)) = d) three_chunks
    /\ indexed_storage
       = <[info_path "demo" := InfoPickle {| total_chunks := length three_chunks;
                                             dimension := d;
                                             info_repo_id := "demo" |}]>
           (<[chunks_path "demo" := ChunksPickle three_chunks]>
              (<[index_path "demo" :=
                   FaissFile {| index_d := d;
                                index_xb := map length_embedding
                                              (map enriched_text three_chunks) |}]> ∅)).
Proof.
  apply (create_index_pointwise steady_documents ∅ indexed_storage "demo" three_chunks
           length_embedding).
  - reflexivity.
  - vm_compute. reflexivity.
Defined.

(** The sample repository built and searched. *)
Lemma create_index_then_search_witness :
  exists results,
    search_similar steady_query indexed_storage "demo" "how are files parsed" 2
      = Returned results
    /\ len results = Z.min 2 (len three_chunks)
    /\ Forall (fun r : LineNumberChunk * distance =>
                 In r.1 three_chunks
                 /\ r.2 = Dist (l2 (length_embedding "how are files parsed")
                                  (length_embedding (enriched_text r.1)))) results.
Proof.
  apply (create_index_then_search steady_documents steady_query ∅ indexed_storage "demo"
           "how are files parsed" three_chunks length_embedding
           (length_embedding "how are files parsed") 2).
  - reflexivity.
  - reflexivity.
  - vm_compute. reflexivity.
  - reflexivity.
  - lia.
Defined.
